(** * Subscriber registry and broadcast dispatch of the LINE alert bot

    A shallow embedding of [main.py]: the line-oriented subscriber file
    ([read_user_ids], [save_user_id], [remove_user_id]), the push fan-out
    of [broadcast_message] and the reply selection of [handle_message].

    Modelling choices.
    - A Python [str] is a list of Unicode code points ([N]).  [str.strip]
      and the truth value of a string follow CPython's whitespace table.
    - [users.txt] is held as decoded text.  Reading goes through the
      universal-newline translation of text mode, then line iteration
      (terminators kept), as [for line in f] sees them.  Written text is
      stored as given (POSIX line separator); text holding a code point
      that UTF-8 cannot carry (a surrogate) makes the write raise.
    - Exceptions are explicit: a computation returns [Return v] or
      [Raise e] together with the new world, and [try_except] plays the
      role of [try: ... except Exception as e:].
    - Storage faults are a property of the disk: the [stat] behind
      [Path.exists], creating the file, opening it for reading (decoding
      included) and opening it for writing can each be refused.
      [Path.exists] answers [False] only when [stat] reports the file
      missing; any other failure of [stat] is raised, as pathlib does.
    - The messaging API is an oracle from the call history and the call
      to success or failure; every call is recorded in the world.
    - [str.lower] is a parameter (the Unicode case table is not part of
      the program). *)

From Stdlib Require Import NArith ZArith Lia String Ascii.
From stdpp Require Import base decidable list sets gmap.
Open Scope N_scope.

(** * Definitions *)

(** ** Text *)

Abbreviation char := N (only parsing).
Abbreviation str := (list N) (only parsing).

Definition LF : char := 10.
Definition CR : char := 13.

(** CPython's [Py_UNICODE_ISSPACE]. *)
Definition is_space (c : char) : bool :=
  ((9 <=? c) && (c <=? 13)) || ((28 <=? c) && (c <=? 32))
  || (c =? 133) || (c =? 160) || (c =? 5760)
  || ((8192 <=? c) && (c <=? 8202))
  || (c =? 8232) || (c =? 8233) || (c =? 8239) || (c =? 8287) || (c =? 12288).

Fixpoint lstrip (s : str) : str :=
  match s with
  | [] => []
  | c :: s' => if is_space c then lstrip s' else s
  end.

Definition rstrip (s : str) : str := rev (lstrip (rev s)).

(** [s.strip()] *)
Definition strip (s : str) : str := rstrip (lstrip s).

(** Truth value of a string: [if s] / [if not s]. *)
Definition truthy (s : str) : bool :=
  match s with [] => false | _ => true end.

(** A code point the UTF-8 codec accepts: a Unicode scalar value. *)
Definition scalar (c : char) : bool :=
  (c <? 55296) || ((57343 <? c) && (c <? 1114112)).

Definition encodable (s : str) : bool := forallb scalar s.

(** Text-mode decoding with [newline=None]: a carriage return, alone or
    followed by a line feed, is handed to the program as one line feed.
    [after_cr] is the decoder's pending-CR flag. *)
Fixpoint universal_newlines (after_cr : bool) (s : str) : str :=
  match s with
  | [] => []
  | c :: s' =>
      if c =? CR then LF :: universal_newlines true s'
      else if (c =? LF) && after_cr then universal_newlines false s'
      else c :: universal_newlines false s'
  end.

(** Iterating a text file: each item runs up to and including the next
    line feed; a last unterminated piece is yielded when non-empty.
    [cur] is the current line read so far, most recent character first. *)
Fixpoint readlines (cur : str) (s : str) : list str :=
  match s with
  | [] => match cur with [] => [] | _ => [rev cur] end
  | c :: s' =>
      if c =? LF then rev (c :: cur) :: readlines [] s'
      else readlines (c :: cur) s'
  end.

(** [[line.strip() for line in f if line.strip()]] *)
Fixpoint stripped_nonblank (lines : list str) : list str :=
  match lines with
  | [] => []
  | line :: rest =>
      if truthy (strip line) then strip line :: stripped_nonblank rest
      else stripped_nonblank rest
  end.

(** The listing a file text stands for. *)
Definition parse_users (text : str) : list str :=
  stripped_nonblank (readlines [] (universal_newlines false text)).

(** [needle in hay] on strings. *)
Fixpoint starts_with (needle hay : str) : bool :=
  match needle, hay with
  | [], _ => true
  | _ :: _, [] => false
  | a :: needle', b :: hay' => (a =? b) && starts_with needle' hay'
  end.

Fixpoint contains (needle hay : str) : bool :=
  starts_with needle hay ||
  match hay with
  | [] => false
  | _ :: hay' => contains needle hay'
  end.

(** *** Source literals

    String literals of the program are written as in the source and
    decoded from UTF-8 to code points. *)

Definition cont (b : N) : N := N.land b 63.

Fixpoint utf8_decode (bs : list N) : str :=
  match bs with
  | [] => []
  | b0 :: r0 =>
      if b0 <? 128 then b0 :: utf8_decode r0
      else match r0 with
      | [] => [b0]
      | b1 :: r1 =>
          if b0 <? 224 then (N.land b0 31 * 64 + cont b1) :: utf8_decode r1
          else match r1 with
          | [] => [b0]
          | b2 :: r2 =>
              if b0 <? 240
              then (N.land b0 15 * 4096 + cont b1 * 64 + cont b2) :: utf8_decode r2
              else match r2 with
              | [] => [b0]
              | b3 :: r3 =>
                  (N.land b0 7 * 262144 + cont b1 * 4096 + cont b2 * 64 + cont b3)
                    :: utf8_decode r3
              end
          end
      end
  end.

Fixpoint bytes_of (s : string) : list N :=
  match s with
  | EmptyString => []
  | String a s' => N_of_ascii a :: bytes_of s'
  end.

Definition py (s : string) : str := utf8_decode (bytes_of s).

(** ** The world: disk, log, messaging API *)

Inductive exn : Type :=
  | OSError
  | UnicodeEncodeError
  | ApiException
  | UnboundLocalError (name : string)
  | HTTPException (status_code : Z) (detail : detail)
with detail : Type :=
  | Text (s : string)
  | Formatted (prefix : string) (e : exn).

Inductive level := INFO | ERROR.

Inductive message :=
  | Created_file
  | Error_creating (e : exn)
  | Error_reading_users (e : exn)
  | Saved_new_user_id (user_id : str)
  | User_id_already_exists (user_id : str)
  | Error_saving_user_id (e : exn)
  | Removed_user_id (user_id : str)
  | User_id_not_found (user_id : str)
  | Error_removing_user_id (e : exn)
  | Error_sending_reply (e : exn)
  | Error_sending_push (user_id : str) (e : exn)
  | Error_in_broadcast (e : exn)
  | Message_from (user_id text : str).

(** [users.txt] and what the file system lets the process do with it. *)
Record storage := {
  content : option str;   (* [None]: the file does not exist *)
  statable : bool;        (* [stat] answers (found or missing) *)
  creatable : bool;       (* a missing file can be created *)
  readable : bool;        (* opening for reading succeeds *)
  writable : bool;        (* opening for writing or appending succeeds *)
}.

Record world := {
  disk : storage;
  log : list (level * message);
  pushed : list (str * str);    (* push calls made so far: (to, text) *)
  replied : list (str * str);   (* reply calls made so far: (token, text) *)
}.

Definition set_content (c : option str) (d : storage) : storage :=
  {| content := c; statable := statable d; creatable := creatable d;
     readable := readable d; writable := writable d |}.

Definition set_disk (d : storage) (w : world) : world :=
  {| disk := d; log := log w; pushed := pushed w; replied := replied w |}.

Inductive outcome (A : Type) : Type :=
  | Return (a : A)
  | Raise (e : exn).
Arguments Return {A} a.
Arguments Raise {A} e.

Definition M (A : Type) : Type := world -> outcome A * world.

Definition ret {A} (a : A) : M A := fun w => (Return a, w).
Definition raise {A} (e : exn) : M A := fun w => (Raise e, w).
Definition bind {A B} (m : M A) (k : A -> M B) : M B :=
  fun w => match m w with
           | (Return a, w') => k a w'
           | (Raise e, w') => (Raise e, w')
           end.

(** [try: body  except Exception as e: handler e] *)
Definition try_except {A} (body : M A) (handler : exn -> M A) : M A :=
  fun w => match body w with
           | (Return a, w') => (Return a, w')
           | (Raise e, w') => handler e w'
           end.

Declare Scope py_scope.
Delimit Scope py_scope with py.
Notation "x <- m ;; k" := (bind m (fun x => k))
  (at level 100, m at next level, right associativity) : py_scope.
Notation "m ;;; k" := (bind m (fun _ => k))
  (at level 100, right associativity) : py_scope.
Open Scope py_scope.

Definition logger (l : level) (m : message) : M unit :=
  fun w => (Return tt,
            {| disk := disk w; log := log w ++ [(l, m)];
               pushed := pushed w; replied := replied w |}).

(** *** Disk primitives

    Each yields the outcome and the disk afterwards. *)

(** [Path(USERS_FILE).exists()]: [stat] the path; "no such file" is
    answered [False], any other error of [stat] (permission denied on
    the directory, an I/O error) is raised again. *)
Definition path_exists (d : storage) : outcome bool :=
  if statable d then
    Return (match content d with Some _ => true | None => false end)
  else Raise OSError.

(** [Path(USERS_FILE).touch()] *)
Definition path_touch (d : storage) : outcome unit * storage :=
  match content d with
  | Some _ => (Return tt, d)
  | None => if creatable d then (Return tt, set_content (Some []) d)
            else (Raise OSError, d)
  end.

(** [with open(USERS_FILE, "r") as f: ... for line in f ...] *)
Definition open_read (d : storage) : outcome (list str) :=
  match content d with
  | None => Raise OSError
  | Some text =>
      if readable d then Return (readlines [] (universal_newlines false text))
      else Raise OSError
  end.

(** Opening for writing or appending creates a missing file; the result
    is the text the file holds once open. *)
Definition open_for_write (d : storage) : outcome str :=
  if writable d then
    match content d with
    | Some text => Return text
    | None => if creatable d then Return [] else Raise OSError
    end
  else Raise OSError.

(** [with open(USERS_FILE, "a") as f: f.write(data)] *)
Definition open_append (data : str) (d : storage) : outcome unit * storage :=
  match open_for_write d with
  | Raise e => (Raise e, d)
  | Return text =>
      if encodable data then (Return tt, set_content (Some (text ++ data)) d)
      else (Raise UnicodeEncodeError, set_content (Some text) d)
  end.

(** [for user in users: f.write(user + "\n")] on an open file holding
    [text]: what has been written when the loop ends or raises. *)
Fixpoint write_users (users : list str) (text : str) : outcome unit * str :=
  match users with
  | [] => (Return tt, text)
  | user :: rest =>
      if encodable (user ++ [LF]) then write_users rest (text ++ user ++ [LF])
      else (Raise UnicodeEncodeError, text)
  end.

(** [with open(USERS_FILE, "w") as f: for user in users: ...]: the file
    is truncated when it is opened. *)
Definition open_write (users : list str) (d : storage) : outcome unit * storage :=
  match open_for_write d with
  | Raise e => (Raise e, d)
  | Return _ =>
      let '(r, text) := write_users users [] in (r, set_content (Some text) d)
  end.

Definition on_disk {A} (op : storage -> outcome A * storage) : M A :=
  fun w => let '(r, d) := op (disk w) in (r, set_disk d w).

(** A question to the disk that changes nothing. *)
Definition query {A} (q : storage -> outcome A) : M A :=
  fun w => (q (disk w), w).

(** ** Subscriber store *)

(** The test [Path(USERS_FILE).exists()] stands before the [try]: what
    it raises leaves the function. *)
Definition ensure_users_file_exists : M unit :=
  file_exists <- query path_exists ;;
  if negb file_exists then
    try_except
      (on_disk path_touch ;;; logger INFO Created_file)
      (fun e => logger ERROR (Error_creating e))
  else ret tt.

Definition read_user_ids : M (list str) :=
  ensure_users_file_exists ;;;
  try_except
    (users <- on_disk (fun d => (open_read d, d)) ;;
     ret (stripped_nonblank users))
    (fun e => logger ERROR (Error_reading_users e) ;;; ret []).

Definition save_user_id (user_id : str) : M bool :=
  try_except
    (users <- read_user_ids ;;
     let existing_users : gset str := list_to_set users in
     if negb (bool_decide (user_id ∈ existing_users)) then
       on_disk (open_append (user_id ++ [LF])) ;;;
       logger INFO (Saved_new_user_id user_id) ;;;
       ret true
     else
       logger INFO (User_id_already_exists user_id) ;;;
       ret false)
    (fun e => logger ERROR (Error_saving_user_id e) ;;; ret false).

(** [users.remove(user_id)]: drops the first occurrence. *)
Fixpoint list_remove (x : str) (l : list str) : list str :=
  match l with
  | [] => []
  | y :: l' => if bool_decide (y = x) then l' else y :: list_remove x l'
  end.

Definition remove_user_id (user_id : str) : M bool :=
  try_except
    (users <- read_user_ids ;;
     if bool_decide (user_id ∈ users) then
       let users := list_remove user_id users in
       on_disk (open_write users) ;;;
       logger INFO (Removed_user_id user_id) ;;;
       ret true
     else
       logger INFO (User_id_not_found user_id) ;;;
       ret false)
    (fun e => logger ERROR (Error_removing_user_id e) ;;; ret false).

(** [len(read_user_ids())], as the count endpoints compute it. *)
Definition get_user_count : M nat :=
  users <- read_user_ids ;; ret (length users).

(** Callers issuing [save_user_id] one after the other, in the given
    order; the results are those of the successive calls. *)
Fixpoint save_each (user_ids : list str) : M (list bool) :=
  match user_ids with
  | [] => ret []
  | user_id :: rest =>
      r <- save_user_id user_id ;;
      rs <- save_each rest ;;
      ret (r :: rs)
  end.

(** *** Concurrent callers

    The source takes no lock.  A call of [save_user_id] touches the file
    twice: the read behind [existing_users = set(read_user_ids())] and,
    when the identifier is new, the append.  Callers running at the same
    time interleave at these two points; each access is atomic. *)

Inductive caller :=
  | Waiting (user_id : str)
  | Decided (user_id : str) (existing_users : list str)
  | Finished (result : bool).

(** The part of [save_user_id] that follows the read. *)
Definition save_decided (user_id : str) (users : list str) : M bool :=
  try_except
    (let existing_users : gset str := list_to_set users in
     if negb (bool_decide (user_id ∈ existing_users)) then
       on_disk (open_append (user_id ++ [LF])) ;;;
       logger INFO (Saved_new_user_id user_id) ;;;
       ret true
     else
       logger INFO (User_id_already_exists user_id) ;;;
       ret false)
    (fun e => logger ERROR (Error_saving_user_id e) ;;; ret false).

(** The next file access of a caller. *)
Definition advance (c : caller) : M caller :=
  match c with
  | Waiting user_id =>
      try_except
        (users <- read_user_ids ;; ret (Decided user_id users))
        (fun e => logger ERROR (Error_saving_user_id e) ;;; ret (Finished false))
  | Decided user_id users =>
      r <- save_decided user_id users ;; ret (Finished r)
  | Finished r => ret (Finished r)
  end.

(** The scheduler lets caller [i] make its next access. *)
Definition schedule_step (st : list caller * world) (i : nat) : list caller * world :=
  match st.1 !! i with
  | Some c =>
      match advance c st.2 with
      | (Return c', w') => (<[i := c']> st.1, w')
      | (Raise _, w') => (st.1, w')
      end
  | None => st
  end.

Definition run_schedule (schedule : list nat) (st : list caller * world)
    : list caller * world :=
  foldl schedule_step st schedule.

Definition finished (c : caller) : Prop :=
  match c with Finished _ => True | _ => False end.

(** One call on the store, and a sequence of such calls. *)
Inductive store_op :=
  | Save (user_id : str)
  | Remove (user_id : str).

Definition run_op (op : store_op) : M bool :=
  match op with
  | Save user_id => save_user_id user_id
  | Remove user_id => remove_user_id user_id
  end.

Fixpoint run_ops (ops : list store_op) : M (list bool) :=
  match ops with
  | [] => ret []
  | op :: rest =>
      r <- run_op op ;;
      rs <- run_ops rest ;;
      ret (r :: rs)
  end.

(** A new process on the same disk: nothing but the file survives. *)
Definition restart (w : world) : world :=
  {| disk := disk w; log := []; pushed := []; replied := [] |}.

(** ** Dispatch *)

Inductive json :=
  | JStr (s : string)
  | JInt (n : Z)
  | JList (l : list str).

(** A Python dict with string keys, in insertion order. *)
Abbreviation dict V := (list (string * V)) (only parsing).

Fixpoint dict_get {V} (d : dict V) (key : string) : option V :=
  match d with
  | [] => None
  | (k, v) :: d' => if String.eqb k key then Some v else dict_get d' key
  end.

(** One [key: value] entry of a dict literal. *)
Definition entry {V} (key : string) (v : V) : string * V := (key, v).

Record MessageEvent := {
  source_user_id : str;
  message_text : str;
  reply_token : str;
}.

Section Dispatch.

(** The platform: whether a call succeeds, given the calls made before. *)
Variable push_accepts : list (str * str) -> str -> str -> bool.
Variable reply_accepts : list (str * str) -> str -> str -> bool.
(** [str.lower] *)
Variable lower : str -> str.

(** [line_bot_api.reply_message(...)] *)
Definition reply_message (reply_token text : str) : M unit :=
  fun w =>
    let w' := {| disk := disk w; log := log w; pushed := pushed w;
                 replied := replied w ++ [(reply_token, text)] |} in
    if reply_accepts (replied w) reply_token text then (Return tt, w')
    else (Raise ApiException, w').

(** [line_bot_api.push_message(...)] *)
Definition push_message (to text : str) : M unit :=
  fun w =>
    let w' := {| disk := disk w; log := log w;
                 pushed := pushed w ++ [(to, text)];
                 replied := replied w |} in
    if push_accepts (pushed w) to text then (Return tt, w')
    else (Raise ApiException, w').

Definition send_reply_message (reply_token text : str) : M bool :=
  try_except
    (reply_message reply_token text ;;; ret true)
    (fun e => logger ERROR (Error_sending_reply e) ;;; ret false).

Definition send_push_message (user_id text : str) : M bool :=
  try_except
    (push_message user_id text ;;; ret true)
    (fun e => logger ERROR (Error_sending_push user_id e) ;;; ret false).

(** The [for user_id in user_ids] loop of [broadcast_message], with its
    two accumulators. *)
Fixpoint broadcast_loop (text : str) (user_ids : list str)
    (success_count : Z) (failed_users : list str) : M (Z * list str) :=
  match user_ids with
  | [] => ret (success_count, failed_users)
  | user_id :: rest =>
      ok <- send_push_message user_id text ;;
      if ok then broadcast_loop text rest (success_count + 1) failed_users
      else broadcast_loop text rest success_count (failed_users ++ [user_id])
  end.

(** The request body carries string values; a missing ["text"] key
    defaults to the empty string. *)
Definition broadcast_message (request : dict str) : M (dict json) :=
  try_except
    (let text := default [] (dict_get request "text") in
     if negb (truthy text) then
       raise (HTTPException 400 (Text "Message text is required"))
     else
       user_ids <- read_user_ids ;;
       match user_ids with
       | [] => ret [entry "message" (JStr "No users to send message to");
                    entry "total_users" (JInt 0)]
       | _ =>
           counts <- broadcast_loop text user_ids 0 [] ;;
           let '(success_count, failed_users) := counts in
           ret [entry "message" (JStr "Broadcast completed");
                entry "total_users" (JInt (Z.of_nat (length user_ids)));
                entry "success_count" (JInt success_count);
                entry "failed_count" (JInt (Z.of_nat (length failed_users)));
                entry "failed_users" (JList failed_users)]
       end)
    (fun e =>
       logger ERROR (Error_in_broadcast e) ;;;
       raise (HTTPException 500 (Formatted "Error broadcasting: " e))).

(** The [if]/[elif] chain of [handle_message]: the binding of the local
    [reply_text] when the chain is left, [None] when no branch ran. *)
Definition reply_text_binding (user_id text : str) : option str :=
  if bool_decide (lower text ∈ [py "สวัสดี"; py "hello"; py "hi"; py "หวัดดี"])
  then Some (py "สวัสดีครับ! 😊" ++ [LF] ++ py "User ID: " ++ user_id)
  else if bool_decide (lower text ∈ [py "ขอบคุณ"; py "thank you"; py "thanks"])
  then Some (py "ยินดีครับ! มีอะไรให้ช่วยอีกไหมครับ? 🙏")
  else if contains (py "user id") (lower text)
  then Some (py "User ID ของคุณคือ: " ++ user_id)
  else None.

Definition handle_message (event : MessageEvent) : M unit :=
  let user_id := source_user_id event in
  let text := strip (message_text event) in
  logger INFO (Message_from user_id text) ;;;
  save_user_id user_id ;;;
  match reply_text_binding user_id text with
  | Some reply_text =>
      send_reply_message (reply_token event) reply_text ;;; ret tt
  | None => raise (UnboundLocalError "reply_text")
  end.

End Dispatch.

(** ** Vocabulary of the statements *)

Definition head_not_space (s : str) : bool :=
  match s with [] => false | c :: _ => negb (is_space c) end.

Definition line_break (c : char) : bool := (c =? LF) || (c =? CR).

(** A string that one line of the file holds as it is: non-empty, no
    whitespace at either end, no line break inside. *)
Definition record_like (x : str) : bool :=
  head_not_space x && head_not_space (rev x)
  && forallb (fun c => negb (line_break c)) x.

(** An identifier the store can hold: a record that UTF-8 can carry. *)
Definition well_formed_id (x : str) : bool := record_like x && encodable x.

(** Saves are given well-formed identifiers; removes are given anything. *)
Definition op_ok (op : store_op) : Prop :=
  match op with
  | Save x => well_formed_id x = true
  | Remove _ => True
  end.

(** [x.strip() == ""]: [x] consists of whitespace only (or is empty). *)
Definition whitespace_only (x : str) : bool := forallb is_space x.

(** The file is empty or its last character is a line feed. *)
Definition terminated (text : str) : Prop :=
  text = [] \/ exists t, text = t ++ [LF].

Definition file_text (d : storage) : str := default [] (content d).

(** The file text that holds [users], one per line. *)
Definition lines_of (users : list str) : str :=
  concat (map (fun user => user ++ [LF]) users).

(** Every operation on the file is permitted. *)
Definition healthy (d : storage) : Prop :=
  statable d = true /\ creatable d = true /\ readable d = true
  /\ writable d = true.


(** The disk is healthy, the file ends its last line and lists nothing
    twice. *)
Definition store_invariant (d : storage) : Prop :=
  healthy d /\ terminated (file_text d) /\ NoDup (parse_users (file_text d)).

(** What a concurrent caller for [x] may be doing when the file lists
    [l]: it has not appended yet and [x] is not listed (nor was it when
    the caller read the file), or it has finished with [true] and [x] is
    listed. *)
Definition caller_ok (l : list str) (x : str) (c : caller) : Prop :=
  match c with
  | Waiting y => y = x /\ (x ∉ l)
  | Decided y users => y = x /\ (x ∉ users) /\ (x ∉ l)
  | Finished r => r = true /\ (x ∈ l)
  end.

Definition interleaving_invariant (ids : list str) (st : list caller * world) : Prop :=
  store_invariant (disk st.2)
  /\ (forall x, x ∈ parse_users (file_text (disk st.2)) -> x ∈ ids)
  /\ Forall2 (caller_ok (parse_users (file_text (disk st.2)))) ids st.1.

(** [list()] and [count()] as a caller observes them. *)
Definition listing (w : world) : outcome (list str) := fst (read_user_ids w).
Definition counting (w : world) : outcome nat := fst (get_user_count w).

(** The identifiers [save_user_id] reported as new, in call order. *)
Fixpoint accepted (xs : list str) (rs : list bool) : list str :=
  match xs, rs with
  | x :: xs', r :: rs' => if r then x :: accepted xs' rs' else accepted xs' rs'
  | _, _ => []
  end.

(** What the platform answers to the successive pushes of one broadcast. *)
Fixpoint push_outcomes (push_accepts : list (str * str) -> str -> str -> bool)
    (history : list (str * str)) (text : str) (user_ids : list str) : list bool :=
  match user_ids with
  | [] => []
  | user_id :: rest =>
      push_accepts history user_id text
        :: push_outcomes push_accepts (history ++ [(user_id, text)]) text rest
  end.

(** The identifiers whose push was refused, in the order met. *)
Fixpoint refused_ids (user_ids : list str) (outcomes : list bool) : list str :=
  match user_ids, outcomes with
  | u :: us, ok :: oks => if ok then refused_ids us oks else u :: refused_ids us oks
  | _, _ => []
  end.

Definition successes (outcomes : list bool) : Z :=
  Z.of_nat (length (filter (fun ok => ok = true) outcomes)).

Definition text_required : exn :=
  HTTPException 400 (Text "Message text is required").

(** *** The store operations seen from the disk

    What each operation returns and leaves on the disk is a function of
    the disk alone; the log only grows.  [touched] and [listed] describe
    a disk whose [stat] answers; when it is refused, [read_user_ids]
    raises before touching anything, and [save_user_id] and
    [remove_user_id] catch that error and return false. *)

Definition touched (d : storage) : storage := snd (path_touch d).

Definition listed (d : storage) : list str :=
  match open_read (touched d) with
  | Return lines => stripped_nonblank lines
  | Raise _ => []
  end.

Definition after (w : world) (d : storage) (l : list (level * message)) : world :=
  {| disk := d; log := log w ++ l; pushed := pushed w; replied := replied w |}.

Definition save_effect (x : str) (d : storage) : bool * storage :=
  if negb (statable d) then (false, d)
  else if bool_decide (x ∈ listed d) then (false, touched d)
  else match open_append (x ++ [LF]) (touched d) with
       | (Return _, d') => (true, d')
       | (Raise _, d') => (false, d')
       end.

Definition remove_effect (x : str) (d : storage) : bool * storage :=
  if negb (statable d) then (false, d)
  else if bool_decide (x ∈ listed d) then
    match open_write (list_remove x (listed d)) (touched d) with
    | (Return _, d') => (true, d')
    | (Raise _, d') => (false, d')
    end
  else (false, touched d).

(** The decoder's pending-CR flag after [s]. *)
Fixpoint pending (after_cr : bool) (s : str) : bool :=
  match s with
  | [] => after_cr
  | c :: s' => pending (c =? CR) s'
  end.

(** What the line under construction contributes if the text ends here. *)
Definition emit (cur : str) : list str := stripped_nonblank [rev cur].

(** *** Sample worlds *)

(** [str.lower] on the ASCII letters; other code points are kept. *)
Definition ascii_lower (s : str) : str :=
  map (fun c => if (65 <=? c) && (c <=? 90) then c + 32 else c) s.

Definition blank_disk : storage :=
  {| content := None; statable := true; creatable := true; readable := true;
     writable := true |}.

Definition disk_with (text : str) : storage := set_content (Some text) blank_disk.

Definition boot (d : storage) : world :=
  {| disk := d; log := []; pushed := []; replied := [] |}.

Definition three_users : world :=
  boot (disk_with (lines_of [py "U1"; py "U2"; py "U3"])).

(** A platform that refuses pushes to [U2] only. *)
Definition all_but_U2 (_ : list (str * str)) (to _ : str) : bool :=
  negb (bool_decide (to = py "U2")).

(** A disk that holds the three users but refuses every open. *)
Definition locked_disk : storage :=
  {| content := Some (lines_of [py "U1"; py "U2"; py "U3"]); statable := true;
     creatable := false; readable := false; writable := false |}.

(** A disk that can be read but not written. *)
Definition read_only_disk : storage :=
  {| content := Some (lines_of [py "U1"; py "U2"; py "U3"]); statable := true;
     creatable := false; readable := true; writable := false |}.

(** A disk that holds the three users in a directory the process may
    not search: [stat] on the file is refused, and so is every open. *)
Definition unsearchable_disk : storage :=
  {| content := Some (lines_of [py "U1"; py "U2"; py "U3"]); statable := false;
     creatable := false; readable := false; writable := false |}.

Definition small_talk : MessageEvent :=
  {| source_user_id := py "U1"; message_text := py " How are you? ";
     reply_token := py "token" |}.

(** ** The rest of the program *)

(** *** Administrative endpoints *)

(** Values of the endpoints' answers. *)
Inductive value :=
  | VStr (s : string)
  | VInt (n : Z)
  | VBool (b : bool)
  | VText (s : str)
  | VList (l : list str).

(** [not v] for what [os.getenv] or [headers.get] returned. *)
Definition not_set (v : option str) : bool :=
  match v with
  | None => true
  | Some s => negb (truthy s)
  end.

(** The module loads only if both credentials are set (otherwise
    [ValueError] at import). *)
Definition module_loads (CHANNEL_ACCESS_TOKEN CHANNEL_SECRET : option str) : bool :=
  negb (not_set CHANNEL_ACCESS_TOKEN || not_set CHANNEL_SECRET).

Definition home : M (dict value) :=
  users <- read_user_ids ;;
  let user_count := length users in
  ret [entry "message" (VStr "LINE Bot is running");
       entry "total_users" (VInt (Z.of_nat user_count));
       entry "status" (VStr "active")].

Definition check_config (CHANNEL_ACCESS_TOKEN CHANNEL_SECRET : option str)
    : M (dict value) :=
  if not_set CHANNEL_ACCESS_TOKEN || not_set CHANNEL_SECRET then
    ret [entry "error" (VStr "Configuration incomplete")]
  else
    users_file_exists <- query path_exists ;;
    users <- read_user_ids ;;
    let user_count := length users in
    ret [entry "message" (VStr "Configuration OK");
         entry "users_file_exists" (VBool users_file_exists);
         entry "total_users" (VInt (Z.of_nat user_count))].

Definition get_users : M (dict value) :=
  users <- read_user_ids ;;
  ret [entry "total_users" (VInt (Z.of_nat (length users)));
       entry "users" (VList users)].

(** The endpoint [get_user_count] of the source ([GET /users/count]); the
    name without suffix is the bare count above. *)
Definition get_user_count_endpoint : M (dict value) :=
  users <- read_user_ids ;;
  let user_count := length users in
  ret [entry "total_users" (VInt (Z.of_nat user_count))].

Definition delete_user (user_id : str) : M (dict value) :=
  removed <- remove_user_id user_id ;;
  if removed then
    ret [entry "message"
           (VText (py "User " ++ user_id ++ py " removed successfully"))]
  else raise (HTTPException 404 (Text "User not found")).

(** *** Follow and unfollow handlers, webhook

    These functions write log lines of their own; they are kept in a
    second stream beside the world. *)

Inductive note :=
  | New_follower (user_id : str)
  | User_unfollowed (user_id : str)
  | Missing_signature_header
  | Received_webhook (body_text : str)
  | Webhook_handled
  | Invalid_signature_error
  | Unexpected_error_handling_webhook (e : exn).

Record session := {
  base : world;
  notes : list (level * note);
}.

Definition H (A : Type) : Type := session -> outcome A * session.

Definition lift {A} (m : M A) : H A :=
  fun s => let '(r, w) := m (base s) in (r, {| base := w; notes := notes s |}).

Definition add_note (l : level) (n : note) (s : session) : session :=
  {| base := base s; notes := notes s ++ [(l, n)] |}.

Definition note_line (l : level) (n : note) : H unit :=
  fun s => (Return tt, add_note l n s).

Definition hbind {A B} (m : H A) (k : A -> H B) : H B :=
  fun s => match m s with
           | (Return a, s') => k a s'
           | (Raise e, s') => (Raise e, s')
           end.

Definition hret {A} (a : A) : H A := fun s => (Return a, s).

Record FollowEvent := {
  follow_user_id : str;
  follow_reply_token : str;
}.

Record UnfollowEvent := {
  unfollow_user_id : str;
}.

Definition welcome_new : str :=
  py "🎉 สวัสดีครับ! ขอบคุณที่เพิ่มเพื่อน" ++ [LF; LF]
  ++ py "คุณสามารถส่งข้อความมาคุยกับเราได้เลยนะครับ!".

Definition welcome_back : str := py "ยินดีต้อนรับกลับครับ! 😊".

(** What [handler.handle] did: returned, raised [InvalidSignatureError],
    or raised something else. *)
Inductive handled :=
  | Handled
  | Raised_InvalidSignatureError
  | Raised_Exception (e : exn).

(** How a call of [webhook] ends. *)
Inductive webhook_result :=
  | JSONResponse (content : dict value)
  | Webhook_HTTPException (status_code : Z) (detail : string)
  | Uncaught_UnicodeDecodeError.

Section Handlers.

Variable reply_accepts : list (str * str) -> str -> str -> bool.
(** [bytes.decode("utf-8")]: [None] when the bytes do not decode. *)
Variable decode_utf8 : list N -> option str.
(** [handler.handle(body_text, signature)] of the messaging SDK. *)
Variable handler_handle : str -> str -> session -> handled * session.

Definition handle_follow (event : FollowEvent) : H unit :=
  let user_id := follow_user_id event in
  hbind (note_line INFO (New_follower user_id)) (fun _ =>
  hbind (lift (save_user_id user_id)) (fun is_new_user =>
  let welcome_text := if is_new_user then welcome_new else welcome_back in
  hbind (lift (send_reply_message reply_accepts (follow_reply_token event)
                 welcome_text)) (fun _ =>
  hret tt))).

Definition handle_unfollow (event : UnfollowEvent) : H unit :=
  let user_id := unfollow_user_id event in
  hbind (note_line INFO (User_unfollowed user_id)) (fun _ =>
  hbind (lift (remove_user_id user_id)) (fun _ =>
  hret tt)).

Definition webhook (signature : option str) (body : list N)
    : session -> webhook_result * session :=
  fun s =>
    if not_set signature then
      (Webhook_HTTPException 400 "Missing X-Line-Signature",
       add_note ERROR Missing_signature_header s)
    else
      match decode_utf8 body with
      | None => (Uncaught_UnicodeDecodeError, s)
      | Some body_text =>
          let s := add_note INFO (Received_webhook body_text) s in
          let reply_text := "Thank you!"%string in
          match handler_handle body_text (default [] signature) s with
          | (Handled, s) =>
              let s := add_note INFO Webhook_handled s in
              let reply_text := "Webhook handled successfully"%string in
              (JSONResponse [entry "message" (VStr reply_text)], s)
          | (Raised_InvalidSignatureError, s) =>
              (Webhook_HTTPException 400 "Invalid signature",
               add_note ERROR Invalid_signature_error s)
          | (Raised_Exception e, s) =>
              (Webhook_HTTPException 500 "Internal server error",
               add_note ERROR (Unexpected_error_handling_webhook e) s)
          end
      end.

End Handlers.

(** *** A remover running beside other callers

    Like [save_user_id], [remove_user_id] reads the file and then, if
    the identifier is listed, rewrites it from what it read. *)

(** The part of [remove_user_id] that follows the read. *)
Definition remove_decided (user_id : str) (users : list str) : M bool :=
  try_except
    (if bool_decide (user_id ∈ users) then
       let users := list_remove user_id users in
       on_disk (open_write users) ;;;
       logger INFO (Removed_user_id user_id) ;;;
       ret true
     else
       logger INFO (User_id_not_found user_id) ;;;
       ret false)
    (fun e => logger ERROR (Error_removing_user_id e) ;;; ret false).

(** *** More sample worlds *)

Definition start (w : world) : session := {| base := w; notes := [] |}.

(** * Lemmas *)

Example py_thai : py "สวัสดี" = [3626; 3623; 3633; 3626; 3604; 3637].
Proof. reflexivity. Qed.
Example py_emoji : py "😊" = [128522].
Proof. reflexivity. Qed.
Example parse_crlf :
  parse_users (py "a" ++ [CR; LF] ++ py " b c " ++ [LF; LF] ++ py "d")
  = [py "a"; py "b c"; py "d"].
Proof. reflexivity. Qed.

(** ** Text lemmas *)

Lemma is_space_LF : is_space LF = true.
Proof. reflexivity. Qed.

Lemma line_break_space c : line_break c = true -> is_space c = true.
Proof.
  unfold line_break, LF, CR. intros H.
  apply orb_true_iff in H as [H | H]; apply N.eqb_eq in H; subst; reflexivity.
Qed.

Lemma lstrip_space w : whitespace_only w = true -> lstrip w = [].
Proof.
  induction w as [| c w IH]; simpl; [done |].
  intros [Hc Hw]%andb_true_iff. rewrite Hc. auto.
Qed.

Lemma lstrip_app s t :
  lstrip (s ++ t) = if whitespace_only s then lstrip t else lstrip s ++ t.
Proof.
  induction s as [| c s IH]; simpl; [done |].
  destruct (is_space c); simpl; done.
Qed.

Lemma strip_snoc_space s c : is_space c = true -> strip (s ++ [c]) = strip s.
Proof.
  intros Hc. unfold strip, rstrip. rewrite lstrip_app. simpl. rewrite Hc.
  destruct (whitespace_only s) eqn:Hs.
  - rewrite (lstrip_space s Hs). done.
  - rewrite rev_app_distr. simpl. rewrite Hc. done.
Qed.

Lemma lstrip_head s : head_not_space s = true -> lstrip s = s.
Proof.
  destruct s as [| c s]; simpl; [done |].
  intros H. apply negb_true_iff in H. rewrite H. done.
Qed.

Lemma record_strip x : record_like x = true -> strip x = x.
Proof.
  unfold record_like. intros [[H1 H2]%andb_true_iff _]%andb_true_iff.
  unfold strip, rstrip. rewrite (lstrip_head x H1), (lstrip_head _ H2).
  apply rev_involutive.
Qed.

Lemma record_truthy x : record_like x = true -> truthy x = true.
Proof. destruct x; [done | done]. Qed.

Lemma record_no_break x :
  record_like x = true -> forallb (fun c => negb (line_break c)) x = true.
Proof. unfold record_like. by intros [_ H]%andb_true_iff. Qed.

Lemma well_formed_record x : well_formed_id x = true -> record_like x = true.
Proof. unfold well_formed_id. by intros [H _]%andb_true_iff. Qed.

Lemma well_formed_encodable x :
  well_formed_id x = true -> encodable (x ++ [LF]) = true.
Proof.
  unfold well_formed_id, encodable. intros [_ H]%andb_true_iff.
  by rewrite forallb_app, H.
Qed.



Lemma universal_newlines_cons b c s :
  universal_newlines b (c :: s)
  = (if c =? CR then [LF] else if (c =? LF) && b then [] else [c])
      ++ universal_newlines (c =? CR) s.
Proof.
  simpl. destruct (c =? CR) eqn:E; [done |].
  destruct ((c =? LF) && b); done.
Qed.

Lemma universal_newlines_app b s t :
  universal_newlines b (s ++ t)
  = universal_newlines b s ++ universal_newlines (pending b s) t.
Proof.
  revert b. induction s as [| c s IH]; intros b; [done |].
  rewrite <- app_comm_cons, !universal_newlines_cons, IH.
  simpl pending. rewrite <- app_assoc. done.
Qed.

Lemma pending_snoc b s c : pending b (s ++ [c]) = (c =? CR).
Proof. revert b. induction s as [| a s IH]; intros b; simpl; auto. Qed.

Lemma universal_newlines_no_break b x :
  forallb (fun c => negb (line_break c)) x = true ->
  universal_newlines b x = x /\ pending false x = false.
Proof.
  revert b. induction x as [| c x IH]; intros b; simpl; [done |].
  intros [Hc Hx]%andb_true_iff.
  apply negb_true_iff, orb_false_iff in Hc as [HLF HCR].
  rewrite HCR, HLF. simpl. destruct (IH false Hx) as [-> ->]. done.
Qed.

Lemma universal_newlines_space b w :
  whitespace_only w = true -> whitespace_only (universal_newlines b w) = true.
Proof.
  revert b. induction w as [| c w IH]; intros b; simpl; [done |].
  intros [Hc Hw]%andb_true_iff.
  destruct (c =? CR); simpl; [by rewrite IH |].
  destruct ((c =? LF) && b); simpl; [by apply IH |].
  rewrite Hc. simpl. by apply IH.
Qed.

(** Once the decoder has seen a carriage return last, its output ends
    with the line feed that stands for it. *)
Lemma universal_newlines_pending b s :
  s <> [] -> pending b s = true ->
  exists r, universal_newlines b s = r ++ [LF].
Proof.
  revert b. induction s as [| c s IH]; intros b Hne Hp; [done |].
  rewrite universal_newlines_cons. simpl in Hp.
  destruct s as [| c' s'].
  - simpl in Hp. rewrite Hp. exists []. done.
  - destruct (IH (c =? CR)) as [r Hr]; [done | done |].
    rewrite Hr. eexists. rewrite app_assoc. done.
Qed.

Lemma universal_newlines_terminated text :
  terminated text -> terminated (universal_newlines false text).
Proof.
  intros [-> | [t ->]]; [by left |]. right.
  rewrite universal_newlines_app.
  destruct (pending false t) eqn:Hp.
  - destruct t as [| c t']; [done |].
    destruct (universal_newlines_pending false (c :: t')) as [r Hr]; [done | done |].
    exists r. rewrite Hr. simpl. rewrite app_nil_r. done.
  - exists (universal_newlines false t). done.
Qed.

Lemma stripped_nonblank_app a b :
  stripped_nonblank (a ++ b) = stripped_nonblank a ++ stripped_nonblank b.
Proof.
  induction a as [| l a IH]; simpl; [done |].
  destruct (truthy (strip l)); simpl; by rewrite IH.
Qed.

Lemma readlines_terminated cur t u :
  readlines cur ((t ++ [LF]) ++ u) = readlines cur (t ++ [LF]) ++ readlines [] u.
Proof.
  revert cur. induction t as [| c t IH]; intros cur; simpl.
  - done.
  - destruct (c =? LF); simpl; by rewrite IH.
Qed.

Lemma readlines_record cur x :
  forallb (fun c => negb (line_break c)) x = true ->
  readlines cur (x ++ [LF]) = [rev cur ++ x ++ [LF]].
Proof.
  revert cur. induction x as [| c x IH]; intros cur; simpl.
  - done.
  - intros [Hc Hx]%andb_true_iff.
    apply negb_true_iff, orb_false_iff in Hc as [HLF _].
    rewrite HLF, IH by done. simpl. rewrite <- app_assoc. done.
Qed.

Lemma emit_nil : emit [] = [].
Proof. reflexivity. Qed.

Lemma readlines_end cur : stripped_nonblank (readlines cur []) = emit cur.
Proof. destruct cur; reflexivity. Qed.

Lemma stripped_nonblank_cons l r :
  stripped_nonblank (l :: r) = stripped_nonblank [l] ++ stripped_nonblank r.
Proof. exact (stripped_nonblank_app [l] r). Qed.

Lemma emit_space c cur :
  is_space c = true -> stripped_nonblank [rev cur ++ [c]] = emit cur.
Proof.
  intros Hc. unfold emit. simpl. rewrite strip_snoc_space by done. done.
Qed.

Lemma readlines_space cur w :
  whitespace_only w = true -> stripped_nonblank (readlines cur w) = emit cur.
Proof.
  revert cur. induction w as [| c w IH]; intros cur.
  - intros _. apply readlines_end.
  - intros [Hc Hw]%andb_true_iff. cbn [readlines rev]. destruct (c =? LF).
    + rewrite stripped_nonblank_cons, IH, emit_space, emit_nil, app_nil_r by done.
      done.
    + rewrite IH by done. apply emit_space, Hc.
Qed.

Lemma readlines_app_space cur t w :
  whitespace_only w = true ->
  stripped_nonblank (readlines cur (t ++ w)) = stripped_nonblank (readlines cur t).
Proof.
  intros Hw. revert cur. induction t as [| c t IH]; intros cur.
  - rewrite app_nil_l, readlines_space, readlines_end by done. done.
  - rewrite <- app_comm_cons. cbn [readlines]. destruct (c =? LF).
    + rewrite (stripped_nonblank_cons _ (readlines [] (t ++ w))), IH.
      symmetry. apply stripped_nonblank_cons.
    + apply IH.
Qed.

(** *** What a stripped line looks like *)

Lemma forallb_lstrip (P : char -> bool) s :
  forallb P s = true -> forallb P (lstrip s) = true.
Proof.
  induction s as [| c s IH]; simpl; [done |].
  intros [Hc Hs]%andb_true_iff. destruct (is_space c); simpl; [auto |].
  by rewrite Hc, Hs.
Qed.

Lemma forallb_rev (P : char -> bool) s : forallb P (rev s) = forallb P s.
Proof.
  induction s as [| c s IH]; simpl; [done |].
  rewrite forallb_app, IH. simpl. rewrite andb_true_r. apply andb_comm.
Qed.

Lemma forallb_strip (P : char -> bool) s :
  forallb P s = true -> forallb P (strip s) = true.
Proof.
  intros H. unfold strip, rstrip. rewrite forallb_rev.
  apply forallb_lstrip. rewrite forallb_rev. by apply forallb_lstrip.
Qed.

Lemma lstrip_suffix s : exists ws, s = ws ++ lstrip s.
Proof.
  induction s as [| c s [ws IH]]; simpl; [by exists [] |].
  destruct (is_space c); [| by exists []].
  exists (c :: ws). simpl. by rewrite <- IH.
Qed.

Lemma lstrip_head_not_space s : head_not_space (lstrip s) = truthy (lstrip s).
Proof.
  induction s as [| c s IH]; simpl; [done |].
  destruct (is_space c) eqn:E; [done |]. simpl. by rewrite E.
Qed.

Lemma truthy_rev s : truthy (rev s) = truthy s.
Proof.
  destruct s as [| c s]; simpl; [done |]. by destruct (rev s).
Qed.

Lemma strip_ends s :
  truthy (strip s) = true ->
  head_not_space (strip s) = true /\ head_not_space (rev (strip s)) = true.
Proof.
  unfold strip, rstrip. intros Ht. rewrite truthy_rev in Ht. split.
  - destruct (lstrip_suffix (rev (lstrip s))) as [ws Hz].
    apply (f_equal (@rev N)) in Hz.
    rewrite rev_involutive, rev_app_distr in Hz.
    pose proof (lstrip_head_not_space s) as Hh.
    destruct (rev (lstrip (rev (lstrip s)))) as [| c r] eqn:E.
    + apply (f_equal (@rev N)) in E. rewrite rev_involutive in E.
      rewrite E in Ht. done.
    + rewrite Hz in Hh. simpl in *. done.
  - rewrite rev_involutive, lstrip_head_not_space. done.
Qed.

Lemma universal_newlines_no_CR b s :
  forallb (fun c => negb (c =? CR)) (universal_newlines b s) = true.
Proof.
  revert b. induction s as [| c s IH]; intros b; simpl; [done |].
  destruct (c =? CR) eqn:E; simpl; [apply IH |].
  destruct ((c =? LF) && b); simpl; [apply IH |]. rewrite E. apply IH.
Qed.

(** A line as iteration yields it: a body without line break, with or
    without its terminator. *)
Lemma readlines_shape cur s l :
  forallb (fun c => negb (line_break c)) cur = true ->
  forallb (fun c => negb (c =? CR)) s = true ->
  l ∈ readlines cur s ->
  exists body,
    forallb (fun c => negb (line_break c)) body = true
    /\ (l = body \/ l = body ++ [LF]).
Proof.
  revert cur. induction s as [| c s IH]; intros cur Hcur Hs Hl.
  - destruct cur as [| c cur]; [by apply elem_of_nil in Hl |].
    simpl in Hl. apply list_elem_of_singleton in Hl. subst l.
    exists (rev (c :: cur)). split; [by rewrite forallb_rev | by left].
  - simpl in Hs. apply andb_true_iff in Hs as [Hc Hs].
    cbn [readlines] in Hl. destruct (c =? LF) eqn:E.
    + apply elem_of_cons in Hl as [-> | Hl].
      * exists (rev cur). split; [by rewrite forallb_rev |]. right.
        apply N.eqb_eq in E. by subst c.
      * by apply (IH []).
    + apply (IH (c :: cur)); [| done | done].
      simpl. unfold line_break at 1. apply negb_true_iff in Hc.
      rewrite E, Hc. exact Hcur.
Qed.

Lemma stripped_nonblank_records lines u :
  (forall l, l ∈ lines ->
     exists body, forallb (fun c => negb (line_break c)) body = true
                  /\ (l = body \/ l = body ++ [LF])) ->
  u ∈ stripped_nonblank lines -> record_like u = true.
Proof.
  induction lines as [| l lines IH]; intros Hshape Hu; simpl in Hu.
  - by apply elem_of_nil in Hu.
  - assert (Hrest : u ∈ stripped_nonblank lines -> record_like u = true).
    { apply IH. intros l' Hl'. apply Hshape. by right. }
    destruct (truthy (strip l)) eqn:Ht; [| by apply Hrest].
    apply elem_of_cons in Hu as [-> | Hu]; [| by apply Hrest].
    destruct (Hshape l) as (body & Hb & Hl); [by left |].
    assert (Hs : strip l = strip body).
    { destruct Hl as [-> | ->]; [done | by apply strip_snoc_space]. }
    rewrite Hs in *. destruct (strip_ends body Ht) as [H1 H2].
    unfold record_like. rewrite H1, H2. simpl. by apply forallb_strip.
Qed.

Lemma parse_users_records text u :
  u ∈ parse_users text -> record_like u = true.
Proof.
  unfold parse_users. apply stripped_nonblank_records.
  intros l. apply readlines_shape; [done | apply universal_newlines_no_CR].
Qed.

(** *** The three facts about parsing the file *)

Lemma parse_users_app text more :
  terminated text ->
  parse_users (text ++ more) = parse_users text ++ parse_users more.
Proof.
  intros Ht. unfold parse_users.
  assert (Hp : pending false text = false).
  { destruct Ht as [-> | [t ->]]; [done | by rewrite pending_snoc]. }
  rewrite universal_newlines_app, Hp.
  destruct (universal_newlines_terminated text Ht) as [-> | [r ->]]; [done |].
  rewrite readlines_terminated. apply stripped_nonblank_app.
Qed.

Lemma parse_users_record x :
  record_like x = true -> parse_users (x ++ [LF]) = [x].
Proof.
  intros Hx. unfold parse_users.
  pose proof (record_no_break x Hx) as Hnb.
  rewrite universal_newlines_app.
  destruct (universal_newlines_no_break false x Hnb) as [-> ->].
  change (universal_newlines false [LF]) with [LF].
  rewrite readlines_record by done. simpl.
  rewrite strip_snoc_space, record_strip, record_truthy by done. done.
Qed.

Lemma parse_users_space text w :
  whitespace_only w = true -> parse_users (text ++ w) = parse_users text.
Proof.
  intros Hw. unfold parse_users. rewrite universal_newlines_app.
  apply readlines_app_space, universal_newlines_space, Hw.
Qed.

(** ** The store operations seen from the disk *)

Lemma existing_users_spec (x : str) (users : list str) :
  bool_decide (x ∈ (list_to_set users : gset str)) = bool_decide (x ∈ users).
Proof. apply bool_decide_ext, elem_of_list_to_set. Qed.

Lemma ensure_users_file_exists_run w :
  statable (disk w) = true ->
  exists l, ensure_users_file_exists w = (Return tt, after w (touched (disk w)) l).
Proof.
  destruct w as [[c st cr rd wr] lg ps rp]. simpl. intros ->.
  unfold ensure_users_file_exists, query, touched, path_exists, path_touch,
    try_except, bind, on_disk, logger, after, set_disk, set_content, ret; simpl.
  destruct c as [t |]; simpl.
  - exists []. by rewrite app_nil_r.
  - destruct cr; simpl; eexists; reflexivity.
Qed.

(** A refused [stat] leaves [read_user_ids] as it left [Path.exists]. *)
Lemma read_user_ids_refused w :
  statable (disk w) = false -> read_user_ids w = (Raise OSError, w).
Proof.
  intros Hs.
  unfold read_user_ids, ensure_users_file_exists, bind, query, path_exists.
  by rewrite Hs.
Qed.

Lemma read_user_ids_run w :
  statable (disk w) = true ->
  exists l,
    read_user_ids w = (Return (listed (disk w)), after w (touched (disk w)) l)
    /\ forall e, open_read (touched (disk w)) = Raise e ->
                 (ERROR, Error_reading_users e) ∈ l.
Proof.
  intros Hs. destruct (ensure_users_file_exists_run w Hs) as [l0 H0].
  unfold read_user_ids, bind. rewrite H0.
  unfold try_except, bind, on_disk, listed, ret, logger. simpl.
  destruct (open_read (touched (disk w))) as [lines | e] eqn:E; simpl.
  - exists l0. split; [| done].
    unfold after, set_disk. simpl. destruct (touched (disk w)); done.
  - exists (l0 ++ [(ERROR, Error_reading_users e)]). split.
    + unfold after, set_disk. simpl. rewrite app_assoc.
      destruct (touched (disk w)); done.
    + intros e' [= <-]. apply elem_of_app. right. by left.
Qed.

Lemma save_user_id_run x w :
  exists l,
    save_user_id x w
    = (Return (fst (save_effect x (disk w))), after w (snd (save_effect x (disk w))) l)
    /\ (statable (disk w) = false -> l = [(ERROR, Error_saving_user_id OSError)])
    /\ forall e, statable (disk w) = true -> x ∉ listed (disk w) ->
         fst (open_append (x ++ [LF]) (touched (disk w))) = Raise e ->
         (ERROR, Error_saving_user_id e) ∈ l.
Proof.
  destruct (statable (disk w)) eqn:Hs; cycle 1.
  { exists [(ERROR, Error_saving_user_id OSError)].
    unfold save_user_id, try_except, bind. rewrite (read_user_ids_refused w Hs).
    unfold save_effect. rewrite Hs. done. }
  destruct (read_user_ids_run w Hs) as (l0 & H0 & _).
  unfold save_user_id, try_except, bind. rewrite H0.
  rewrite existing_users_spec. unfold save_effect. rewrite Hs. cbn [negb].
  destruct (bool_decide (x ∈ listed (disk w))) eqn:Hin; simpl.
  - exists (l0 ++ [(INFO, User_id_already_exists x)]). split_and!; [| done |].
    + unfold logger, ret, after; simpl. by rewrite app_assoc.
    + intros e _ Hx. by apply bool_decide_eq_true in Hin.
  - unfold on_disk. simpl.
    destruct (open_append (x ++ [LF]) (touched (disk w))) as [[[] | e] d'] eqn:E; simpl.
    + exists (l0 ++ [(INFO, Saved_new_user_id x)]). split_and!; [| done |].
      * unfold logger, ret, set_disk, after; simpl. by rewrite app_assoc.
      * intros e _ _ [=].
    + exists (l0 ++ [(ERROR, Error_saving_user_id e)]). split_and!; [| done |].
      * unfold logger, ret, set_disk, after; simpl. by rewrite app_assoc.
      * intros e' _ _ [= <-]. apply elem_of_app. right. by left.
Qed.

Lemma remove_user_id_run x w :
  exists l,
    remove_user_id x w
    = (Return (fst (remove_effect x (disk w))),
       after w (snd (remove_effect x (disk w))) l)
    /\ (statable (disk w) = false -> l = [(ERROR, Error_removing_user_id OSError)])
    /\ forall e, statable (disk w) = true -> x ∈ listed (disk w) ->
         fst (open_write (list_remove x (listed (disk w))) (touched (disk w)))
         = Raise e ->
         (ERROR, Error_removing_user_id e) ∈ l.
Proof.
  destruct (statable (disk w)) eqn:Hs; cycle 1.
  { exists [(ERROR, Error_removing_user_id OSError)].
    unfold remove_user_id, try_except, bind. rewrite (read_user_ids_refused w Hs).
    unfold remove_effect. rewrite Hs. done. }
  destruct (read_user_ids_run w Hs) as (l0 & H0 & _).
  unfold remove_user_id, try_except, bind. rewrite H0.
  unfold remove_effect. rewrite Hs. cbn [negb].
  destruct (bool_decide (x ∈ listed (disk w))) eqn:Hin; simpl.
  - unfold on_disk. simpl.
    destruct (open_write _ (touched (disk w))) as [[[] | e] d'] eqn:E; simpl.
    + exists (l0 ++ [(INFO, Removed_user_id x)]). split_and!; [| done |].
      * unfold logger, ret, set_disk, after; simpl. by rewrite app_assoc.
      * intros e _ _ [=].
    + exists (l0 ++ [(ERROR, Error_removing_user_id e)]). split_and!; [| done |].
      * unfold logger, ret, set_disk, after; simpl. by rewrite app_assoc.
      * intros e' _ _ [= <-]. apply elem_of_app. right. by left.
  - exists (l0 ++ [(INFO, User_id_not_found x)]). split_and!; [| done |].
    + unfold logger, ret, after; simpl. by rewrite app_assoc.
    + intros e _ Hx. by apply bool_decide_eq_false in Hin.
Qed.

(** *** A healthy disk *)

Lemma healthy_set_content c d : healthy d -> healthy (set_content c d).
Proof. done. Qed.

Lemma file_text_set_content t d : file_text (set_content (Some t) d) = t.
Proof. done. Qed.

Lemma healthy_statable d : healthy d -> statable d = true.
Proof. by intros (Hs & _). Qed.

(** A missing file that can be created is created empty; a file that
    exists is left alone. *)
Lemma touched_creatable d :
  (content d = None -> creatable d = true) ->
  touched d = set_content (Some (file_text d)) d.
Proof.
  intros Hc. unfold touched, path_touch, file_text.
  destruct d as [[t |] st cr rd wr]; simpl in *; [done |]. by rewrite Hc.
Qed.

Lemma touched_healthy d :
  healthy d -> touched d = set_content (Some (file_text d)) d.
Proof. intros (_ & Hc & _). by apply touched_creatable. Qed.

Lemma listed_healthy d : healthy d -> listed d = parse_users (file_text d).
Proof.
  intros H. unfold listed. rewrite touched_healthy by done.
  destruct H as (_ & _ & Hr & _). unfold open_read. simpl. by rewrite Hr.
Qed.

Lemma save_effect_healthy x d :
  healthy d ->
  encodable (x ++ [LF]) = true ->
  save_effect x d
  = if bool_decide (x ∈ parse_users (file_text d))
    then (false, set_content (Some (file_text d)) d)
    else (true, set_content (Some (file_text d ++ x ++ [LF])) d).
Proof.
  intros H Henc. unfold save_effect.
  rewrite (healthy_statable d H). cbn [negb].
  rewrite listed_healthy, touched_healthy by done.
  destruct (bool_decide _); [done |].
  destruct H as (_ & _ & _ & Hw).
  unfold open_append, open_for_write. simpl. rewrite Hw, Henc. done.
Qed.

(** What a caller of [list()] and [count()] observes is decided by the
    disk alone. *)
Lemma listing_run w :
  listing w
  = if statable (disk w) then Return (listed (disk w)) else Raise OSError.
Proof.
  unfold listing. destruct (statable (disk w)) eqn:Hs.
  - destruct (read_user_ids_run w Hs) as (l & -> & _). done.
  - by rewrite read_user_ids_refused.
Qed.

Lemma counting_run w :
  counting w
  = if statable (disk w) then Return (length (listed (disk w)))
    else Raise OSError.
Proof.
  unfold counting, get_user_count, bind. destruct (statable (disk w)) eqn:Hs.
  - destruct (read_user_ids_run w Hs) as (l & -> & _). done.
  - by rewrite read_user_ids_refused.
Qed.

Lemma listing_Return w users :
  listing w = Return users ->
  statable (disk w) = true /\ users = listed (disk w).
Proof.
  rewrite listing_run. destruct (statable (disk w)); [| done].
  by intros [= <-].
Qed.

Lemma listing_statable w :
  statable (disk w) = true -> listing w = Return (listed (disk w)).
Proof. intros Hs. by rewrite listing_run, Hs. Qed.

Lemma listing_healthy w :
  healthy (disk w) -> listing w = Return (parse_users (file_text (disk w))).
Proof.
  intros Hh. by rewrite listing_run, (healthy_statable _ Hh), listed_healthy.
Qed.

Lemma counting_healthy w :
  healthy (disk w) ->
  counting w = Return (length (parse_users (file_text (disk w)))).
Proof.
  intros Hh. by rewrite counting_run, (healthy_statable _ Hh), listed_healthy.
Qed.

Lemma listing_same_disk v w : disk v = disk w -> listing v = listing w.
Proof. intros E. by rewrite !listing_run, E. Qed.

(** *** What the listing can contain *)





(** *** Successive saves on a healthy disk *)

Lemma terminated_record text x : terminated (text ++ x ++ [LF]).
Proof. right. exists (text ++ x). by rewrite app_assoc. Qed.

Lemma save_each_run xs :
  forall w,
    healthy (disk w) -> terminated (file_text (disk w)) ->
    Forall (fun x => well_formed_id x = true) xs ->
    exists rs w',
      save_each xs w = (Return rs, w')
      /\ healthy (disk w')
      /\ file_text (disk w') = file_text (disk w) ++ lines_of (accepted xs rs)
      /\ listed (disk w') = listed (disk w) ++ accepted xs rs
      /\ (NoDup xs -> (forall x, x ∈ xs -> x ∉ listed (disk w)) ->
          rs = replicate (length xs) true).
Proof.
  induction xs as [| x xs IH]; intros w Hh Ht Hwf.
  - exists [], w. simpl. unfold lines_of. simpl. rewrite !app_nil_r. done.
  - apply Forall_cons in Hwf as [Hx Hxs].
    destruct (save_user_id_run x w) as (l & Hrun & _).
    rewrite save_effect_healthy in Hrun by (done || by apply well_formed_encodable).
    cbn [save_each]. unfold bind at 1. rewrite Hrun.
    destruct (bool_decide (x ∈ parse_users (file_text (disk w)))) eqn:Hin; cbn [fst snd].
    + set (w1 := after w _ l).
      destruct (IH w1) as (rs & w' & Hrs & Hh' & Hft & Hls & Hall); [done | | done |].
      { simpl. destruct Ht as [-> | [t ->]]; [by left | right; by exists t]. }
      exists (false :: rs), w'. unfold bind, ret. rewrite Hrs.
      split_and!; [done | done | | |].
      * by rewrite Hft.
      * rewrite Hls. unfold w1. simpl.
        rewrite !listed_healthy by done. by rewrite file_text_set_content.
      * intros Hnd Hfresh. exfalso.
        apply bool_decide_eq_true in Hin.
        apply (Hfresh x); [by left |]. by rewrite listed_healthy.
    + set (w1 := after w _ l).
      destruct (IH w1) as (rs & w' & Hrs & Hh' & Hft & Hls & Hall); [done | | done |].
      { simpl. apply terminated_record. }
      assert (Hl1 : listed (disk w1) = listed (disk w) ++ [x]).
      { unfold w1. simpl. rewrite !listed_healthy by done.
        rewrite file_text_set_content, parse_users_app, parse_users_record
          by (done || by apply well_formed_record).
        done. }
      exists (true :: rs), w'. unfold bind, ret. rewrite Hrs.
      split_and!; [done | done | | |].
      * rewrite Hft. unfold w1, lines_of. simpl.
        rewrite file_text_set_content. by rewrite <- !app_assoc.
      * rewrite Hls, Hl1. by rewrite <- app_assoc.
      * intros [Hx' Hnd]%NoDup_cons Hfresh. simpl. f_equal.
        apply Hall; [done |]. intros y Hy. rewrite Hl1.
        intros [Hy' | Hy']%elem_of_app.
        -- apply (Hfresh y); [by right | done].
        -- apply list_elem_of_singleton in Hy'. by subst.
Qed.




(** *** Rewriting the file *)

Lemma terminated_lines_of users : terminated (lines_of users).
Proof.
  induction users as [| u users IH]; [by left |]. right.
  unfold lines_of in *. simpl.
  destruct IH as [-> | [t ->]].
  - exists u. by rewrite app_nil_r.
  - exists (u ++ [LF] ++ t). by rewrite <- !app_assoc.
Qed.

Lemma parse_users_lines_of users :
  Forall (fun u => record_like u = true) users ->
  parse_users (lines_of users) = users.
Proof.
  induction 1 as [| u users Hu _ IH]; [done |].
  change (lines_of (u :: users)) with ((u ++ [LF]) ++ lines_of users).
  rewrite parse_users_app by apply (terminated_record []).
  by rewrite parse_users_record, IH.
Qed.

Lemma write_users_written users :
  forall text,
  exists pre post,
    users = pre ++ post
    /\ snd (write_users users text) = text ++ lines_of pre.
Proof.
  induction users as [| u users IH]; intros text.
  - exists [], []. unfold lines_of. simpl. by rewrite app_nil_r.
  - simpl. destruct (encodable (u ++ [LF])).
    + destruct (IH (text ++ u ++ [LF])) as (pre & post & -> & Hw).
      exists (u :: pre), post. split; [done |].
      rewrite Hw. unfold lines_of. simpl. by rewrite <- !app_assoc.
    + exists [], (u :: users). unfold lines_of. simpl. by rewrite app_nil_r.
Qed.

Lemma list_remove_sublist x l : list_remove x l `sublist_of` l.
Proof.
  induction l as [| y l IH]; simpl; [done |].
  destruct (bool_decide (y = x)); [by apply sublist_cons | by apply sublist_skip].
Qed.

Lemma remove_effect_healthy x d :
  healthy d ->
  snd (remove_effect x d) = set_content (Some (file_text d)) d
  \/ exists kept,
       kept `sublist_of` parse_users (file_text d)
       /\ snd (remove_effect x d) = set_content (Some (lines_of kept)) d.
Proof.
  intros H. unfold remove_effect.
  rewrite (healthy_statable d H). cbn [negb].
  rewrite listed_healthy, touched_healthy by done.
  destruct (bool_decide _); [right | by left].
  destruct H as (_ & _ & _ & Hw).
  unfold open_write, open_for_write. simpl. rewrite Hw.
  set (users := list_remove x (parse_users (file_text d))).
  destruct (write_users_written users []) as (pre & post & Hsplit & Hwr).
  destruct (write_users users []) as [r text] eqn:E. simpl in Hwr. subst text.
  exists pre. split.
  - transitivity users; [| apply list_remove_sublist].
    rewrite Hsplit. by apply sublist_inserts_r.
  - by destruct r.
Qed.

(** *** The listing stays duplicate-free under well-formed saves *)

Lemma run_op_keeps_invariant op w :
  store_invariant (disk w) -> op_ok op ->
  exists r w', run_op op w = (Return r, w') /\ store_invariant (disk w').
Proof.
  intros (Hh & Ht & Hnd) Hok. destruct op as [x | x]; simpl in *.
  - destruct (save_user_id_run x w) as (l & Hrun & _).
    rewrite save_effect_healthy in Hrun by (done || by apply well_formed_encodable).
    eexists _, _. split; [exact Hrun |].
    destruct (bool_decide (x ∈ parse_users (file_text (disk w)))) eqn:Hin;
      cbn [fst snd after disk]; (split; [done |]); rewrite file_text_set_content.
    + done.
    + split; [apply terminated_record |].
      rewrite parse_users_app, parse_users_record
        by (done || by apply well_formed_record).
      apply NoDup_app. split_and!; [done | | apply NoDup_singleton].
      intros y Hy ->%list_elem_of_singleton.
      by apply bool_decide_eq_false in Hin.
  - destruct (remove_user_id_run x w) as (l & Hrun & _).
    eexists _, _. split; [exact Hrun |]. cbn [after disk].
    destruct (remove_effect_healthy x (disk w) Hh) as [-> | (kept & Hsub & ->)];
      (split; [done |]); rewrite file_text_set_content; [done |].
    split; [apply terminated_lines_of |].
    rewrite parse_users_lines_of.
    + by apply (sublist_NoDup kept (parse_users (file_text (disk w)))).
    + apply Forall_forall. intros u Hu.
      apply (parse_users_records (file_text (disk w))).
      by apply (elem_of_sublist kept).
Qed.

Lemma run_ops_keep_listing_duplicate_free ops :
  forall w,
    store_invariant (disk w) -> Forall op_ok ops ->
    exists rs w' users,
      run_ops ops w = (Return rs, w')
      /\ store_invariant (disk w')
      /\ listing w' = Return users
      /\ NoDup users.
Proof.
  induction ops as [| op ops IH]; intros w Hw Hok.
  - exists [], w, (parse_users (file_text (disk w))).
    split_and!; [done | done | | by destruct Hw as (_ & _ & ?)].
    rewrite listing_healthy; [done | by destruct Hw].
  - apply Forall_cons in Hok as [Hop Hops].
    destruct (run_op_keeps_invariant op w Hw Hop) as (r & w1 & Hrun & Hw1).
    destruct (IH w1 Hw1 Hops) as (rs & w' & users & Hrs & Hw' & Hl & Hnd).
    exists (r :: rs), w', users. split_and!; [| done | done | done].
    cbn [run_ops]. unfold bind at 1. rewrite Hrun.
    unfold bind, ret. by rewrite Hrs.
Qed.

Lemma touched_idem d : touched (touched d) = touched d.
Proof.
  unfold touched, path_touch.
  destruct d as [[t |] st [] rd wr]; reflexivity.
Qed.

Lemma statable_touched d : statable (touched d) = statable d.
Proof.
  unfold touched, path_touch.
  destruct d as [[t |] st [] rd wr]; reflexivity.
Qed.

Lemma file_text_touched d : file_text (touched d) = file_text d.
Proof.
  unfold touched, path_touch, file_text.
  destruct d as [[t |] st [] rd wr]; reflexivity.
Qed.

Lemma listed_touched d : listed (touched d) = listed d.
Proof. unfold listed. by rewrite touched_idem. Qed.

(** Whatever the disk allows, a save leaves the text it found, followed
    by the identifier and a line feed exactly when it returns true. *)
Lemma save_effect_file_text x d :
  file_text (snd (save_effect x d))
  = file_text d ++ (if fst (save_effect x d) then x ++ [LF] else []).
Proof.
  unfold save_effect.
  destruct (statable d); cbn [negb fst snd]; [| by rewrite app_nil_r].
  pose proof (file_text_touched d) as Ht.
  destruct (bool_decide _); cbn [fst snd]; [by rewrite Ht, app_nil_r |].
  unfold open_append, open_for_write. rewrite <- Ht.
  unfold file_text.
  destruct (touched d) as [[t |] st cr rd [|]]; simpl;
    try (by rewrite app_nil_r);
    destruct (encodable (x ++ [LF])); simpl; try (by rewrite ?app_nil_r);
    destruct cr; simpl; by rewrite ?app_nil_r.
Qed.

Lemma save_each_appends xs :
  forall w,
  exists rs w',
    save_each xs w = (Return rs, w')
    /\ length rs = length xs
    /\ file_text (disk w') = file_text (disk w) ++ lines_of (accepted xs rs).
Proof.
  induction xs as [| x xs IH]; intros w.
  - exists [], w. unfold lines_of. simpl. by rewrite app_nil_r.
  - destruct (save_user_id_run x w) as (l & Hrun & _).
    set (b := fst (save_effect x (disk w))) in *.
    set (w1 := after w _ l) in Hrun.
    destruct (IH w1) as (rs & w' & Hrs & Hlen & Hft).
    exists (b :: rs), w'. cbn [save_each]. unfold bind at 1. rewrite Hrun.
    unfold bind, ret. rewrite Hrs. split_and!; [done | simpl; by rewrite Hlen |].
    rewrite Hft. unfold w1. cbn [after disk].
    rewrite save_effect_file_text. fold b. cbn [accepted].
    destruct b; unfold lines_of; simpl; by rewrite <- ?app_assoc, ?app_nil_r.
Qed.

Lemma touched_content d t : content d = Some t -> touched d = d.
Proof. unfold touched, path_touch. by intros ->. Qed.

(** ** Interleaved saves *)

(** Letting one caller make both of its accesses in a row is a call of
    [save_user_id]. *)
Lemma save_user_id_two_steps x w :
  statable (disk w) = true ->
  exists users w1 r w2,
    advance (Waiting x) w = (Return (Decided x users), w1)
    /\ advance (Decided x users) w1 = (Return (Finished r), w2)
    /\ save_user_id x w = (Return r, w2).
Proof.
  intros Hs. destruct (read_user_ids_run w Hs) as (l0 & Hread & _).
  exists (listed (disk w)), (after w (touched (disk w)) l0).
  unfold advance, save_user_id, save_decided, try_except, bind.
  rewrite Hread. unfold ret at 1.
  destruct (bool_decide _); simpl.
  - eexists _, _. split; [done |]. split; reflexivity.
  - unfold on_disk. simpl.
    destruct (open_append _ _) as [[[] | e] d']; simpl;
      eexists _, _; (split; [done |]); split; reflexivity.
Qed.

Lemma advance_waiting x w :
  healthy (disk w) ->
  exists l,
    advance (Waiting x) w
    = (Return (Decided x (parse_users (file_text (disk w)))),
       after w (set_content (Some (file_text (disk w))) (disk w)) l).
Proof.
  intros Hh.
  destruct (read_user_ids_run w (healthy_statable _ Hh)) as (l0 & Hread & _).
  rewrite listed_healthy, touched_healthy in Hread by done.
  exists l0. unfold advance, try_except, bind. by rewrite Hread.
Qed.

Lemma advance_decided x users w :
  healthy (disk w) -> encodable (x ++ [LF]) = true -> x ∉ users ->
  exists l,
    advance (Decided x users) w
    = (Return (Finished true),
       after w (set_content (Some (file_text (disk w) ++ x ++ [LF])) (disk w)) l).
Proof.
  intros (_ & Hc & _ & Hw) Henc Hx.
  unfold advance, save_decided, try_except, bind.
  rewrite existing_users_spec, bool_decide_eq_false_2 by done. simpl.
  unfold on_disk, open_append, open_for_write, file_text.
  rewrite Hw, Henc.
  destruct (content (disk w)) as [t |] eqn:E; simpl.
  - exists [(INFO, Saved_new_user_id x)]. done.
  - rewrite Hc. exists [(INFO, Saved_new_user_id x)]. done.
Qed.

Lemma schedule_step_invariant ids st i :
  NoDup ids ->
  Forall (fun x => well_formed_id x = true) ids ->
  interleaving_invariant ids st ->
  interleaving_invariant ids (schedule_step st i).
Proof.
  intros Hnd Hwf ((Hh & Ht & HndL) & Hsub & Hcs).
  destruct st as [cs w]. simpl in *. unfold schedule_step. simpl.
  destruct (cs !! i) as [c |] eqn:Hc; [| done].
  destruct (Forall2_lookup_r _ _ _ _ _ Hcs Hc) as (x & Hx & Hok).
  assert (Hxwf : well_formed_id x = true).
  { eapply (proj1 (Forall_lookup _ _) Hwf). exact Hx. }
  destruct c as [y | y users | r]; simpl in Hok.
  - destruct Hok as [-> Hnew].
    destruct (advance_waiting x w Hh) as [l ->].
    split; [| split]; cbn [after disk fst snd]; unfold store_invariant;
      rewrite !file_text_set_content.
    + done.
    + done.
    + rewrite <- (list_insert_id ids i x Hx). by apply Forall2_insert.
  - destruct Hok as (-> & Hold & Hnew).
    destruct (advance_decided x users w Hh (well_formed_encodable x Hxwf) Hold)
      as [l ->].
    assert (Hl : parse_users (file_text (disk w) ++ x ++ [LF])
                 = parse_users (file_text (disk w)) ++ [x]).
    { rewrite parse_users_app, parse_users_record
        by (done || by apply well_formed_record). done. }
    split; [| split]; cbn [after disk fst snd]; unfold store_invariant;
      rewrite !file_text_set_content, ?Hl.
    + split; [done |]. split; [apply terminated_record |].
      apply NoDup_app. split_and!; [done | | apply NoDup_singleton].
      by intros z Hz ->%list_elem_of_singleton.
    + intros z [Hz | ->%list_elem_of_singleton]%elem_of_app; [by apply Hsub |].
      by eapply list_elem_of_lookup_2.
    + apply Forall2_same_length_lookup. split.
      { rewrite length_insert. by eapply Forall2_length. }
      intros j z c Hz Hcj.
      destruct (decide (j = i)) as [-> | Hji].
      * rewrite list_lookup_insert_eq in Hcj by (by eapply lookup_lt_Some).
        injection Hcj as <-. rewrite Hx in Hz. injection Hz as <-.
        simpl. split; [done |]. apply elem_of_app. right. by left.
      * rewrite list_lookup_insert_ne in Hcj by done.
        pose proof (proj1 (Forall2_same_length_lookup _ _ _) Hcs) as [_ Hall].
        specialize (Hall j z c Hz Hcj).
        assert (Hzx : z <> x).
        { intros ->. apply Hji. exact (NoDup_lookup ids j i x Hnd Hz Hx). }
        assert (Happ : forall k : list str, z ∉ k -> z ∉ k ++ [x]).
        { intros k Hk [? | ?%list_elem_of_singleton]%elem_of_app; done. }
        destruct c as [y' | y' users' | r']; simpl in *.
        -- destruct Hall as [-> ?]. split; [done | by apply Happ].
        -- destruct Hall as (-> & ? & ?). split_and!; [done | done | by apply Happ].
        -- destruct Hall as [-> ?]. split; [done |]. apply elem_of_app. by left.
  - cbn [advance]. unfold ret. rewrite list_insert_id by done.
    split; [| split]; done.
Qed.

Lemma run_schedule_invariant ids schedule :
  NoDup ids ->
  Forall (fun x => well_formed_id x = true) ids ->
  forall st,
    interleaving_invariant ids st ->
    interleaving_invariant ids (run_schedule schedule st).
Proof.
  intros Hnd Hwf. unfold run_schedule.
  induction schedule as [| i schedule IH]; intros st Hst; [done |].
  simpl. apply IH. by apply schedule_step_invariant.
Qed.

(** Whatever the interleaving of the callers' accesses, once they have
    all finished each has returned true and the listing holds exactly
    their identifiers, each once. *)
Lemma interleaved_saves ids schedule w :
  NoDup ids ->
  Forall (fun x => well_formed_id x = true) ids ->
  healthy (disk w) ->
  file_text (disk w) = [] ->
  let st := run_schedule schedule (map Waiting ids, w) in
  Forall finished st.1 ->
  st.1 = map (fun _ => Finished true) ids
  /\ exists users, listing st.2 = Return users /\ users ≡ₚ ids.
Proof.
  intros Hnd Hwf Hh Hempty st Hfin.
  assert (Hinit : interleaving_invariant ids (map Waiting ids, w)).
  { unfold interleaving_invariant, store_invariant. cbn [fst snd].
    rewrite Hempty. split_and!; [done | by left | apply NoDup_nil_2 | |].
    - by intros x ?%elem_of_nil.
    - apply Forall2_fmap_r, Forall_Forall2_diag, Forall_forall.
      intros x _. split; [done | apply not_elem_of_nil]. }
  pose proof (run_schedule_invariant ids schedule Hnd Hwf _ Hinit)
    as ((Hh' & _ & HndL) & Hsub & Hcs).
  fold st in Hh', HndL, Hsub, Hcs.
  assert (Hall : forall i x c, ids !! i = Some x -> st.1 !! i = Some c ->
                   c = Finished true /\ x ∈ parse_users (file_text (disk st.2))).
  { intros i x c Hx Hc.
    pose proof (proj1 (Forall2_same_length_lookup _ _ _) Hcs) as [_ Hok].
    specialize (Hok i x c Hx Hc).
    pose proof (proj1 (Forall_lookup _ _) Hfin i c Hc) as Hf.
    destruct c; simpl in *; [done | done |]. by destruct Hok as [-> ?]. }
  split.
  - apply list_eq_same_length with (length ids).
    + by rewrite length_map.
    + symmetry. by eapply Forall2_length.
    + intros i c c' Hi Hc Hc'.
      rewrite list_lookup_fmap in Hc'.
      destruct (ids !! i) as [x |] eqn:Hx; [| done].
      injection Hc' as <-. by destruct (Hall i x c Hx Hc).
  - exists (parse_users (file_text (disk st.2))). split.
    + by rewrite listing_healthy.
    + apply NoDup_Permutation; [done | done |]. intros x. split; [by apply Hsub |].
      intros [i Hx]%list_elem_of_lookup_1.
      destruct (lookup_lt_is_Some_2 st.1 i) as [c Hc].
      { rewrite <- (Forall2_length _ _ _ Hcs). by eapply lookup_lt_Some. }
      by destruct (Hall i x c Hx Hc).
Qed.

Example interleaved_saves_three :
  let st := run_schedule [0; 1; 2; 2; 0; 1]%nat
              (map Waiting [py "U1"; py "U2"; py "U3"], boot blank_disk) in
  st.1 = [Finished true; Finished true; Finished true]
  /\ listing st.2 = Return [py "U3"; py "U1"; py "U2"].
Proof. split; vm_compute; reflexivity. Qed.

(** ** The broadcast loop *)

Lemma send_push_message_run push_accepts user_id text w :
  exists l,
    send_push_message push_accepts user_id text w
    = (Return (push_accepts (pushed w) user_id text),
       {| disk := disk w; log := log w ++ l;
          pushed := pushed w ++ [(user_id, text)]; replied := replied w |}).
Proof.
  unfold send_push_message, try_except, bind, push_message, logger, ret.
  destruct (push_accepts (pushed w) user_id text); simpl.
  - exists []. by rewrite app_nil_r.
  - eexists. reflexivity.
Qed.

Lemma broadcast_loop_run push_accepts text user_ids :
  forall success_count failed_users w,
  exists l,
    broadcast_loop push_accepts text user_ids success_count failed_users w
    = (Return
         (success_count + successes (push_outcomes push_accepts (pushed w) text user_ids),
          failed_users
            ++ refused_ids user_ids (push_outcomes push_accepts (pushed w) text user_ids))%Z,
       {| disk := disk w; log := log w ++ l;
          pushed := pushed w ++ map (fun u => (u, text)) user_ids;
          replied := replied w |}).
Proof.
  induction user_ids as [| u us IH]; intros sc fu w.
  - exists []. unfold successes. simpl. unfold ret.
    rewrite Z.add_0_r, !app_nil_r. by destruct w.
  - destruct (send_push_message_run push_accepts u text w) as [l0 H0].
    cbn [broadcast_loop]. unfold bind. rewrite H0.
    cbn [push_outcomes refused_ids].
    destruct (push_accepts (pushed w) u text).
    + edestruct IH as [l1 H1]. rewrite H1. exists (l0 ++ l1). simpl.
      rewrite <- !app_assoc. do 3 f_equal.
      unfold successes. rewrite filter_cons_True by done. simpl length. lia.
    + edestruct IH as [l1 H1]. rewrite H1. exists (l0 ++ l1). simpl.
      rewrite <- !app_assoc. by do 3 f_equal.
Qed.

(** Every targeted identifier is counted once, as a success or as a
    failure. *)
Lemma push_outcomes_account push_accepts history text user_ids :
  let outcomes := push_outcomes push_accepts history text user_ids in
  length outcomes = length user_ids
  /\ (successes outcomes + Z.of_nat (length (refused_ids user_ids outcomes))
      = Z.of_nat (length user_ids))%Z.
Proof.
  revert history. induction user_ids as [| u us IH]; intros history; [done |].
  cbn [push_outcomes]. destruct (IH (history ++ [(u, text)])) as [Hlen Hsum].
  split; [simpl; by rewrite Hlen |].
  unfold successes in *.
  destruct (push_accepts history u text); cbn [refused_ids].
  - rewrite filter_cons_True by done. simpl length. lia.
  - rewrite filter_cons_False by done. simpl length. lia.
Qed.

Lemma broadcast_message_run push_accepts request text w :
  dict_get request "text" = Some text ->
  text <> [] ->
  statable (disk w) = true ->
  let snapshot := listed (disk w) in
  let outcomes := push_outcomes push_accepts (pushed w) text snapshot in
  exists l,
    broadcast_message push_accepts request w
    = (Return
         match snapshot with
         | [] => [entry "message" (JStr "No users to send message to");
                  entry "total_users" (JInt 0)]
         | _ => [entry "message" (JStr "Broadcast completed");
                 entry "total_users" (JInt (Z.of_nat (length snapshot)));
                 entry "success_count" (JInt (successes outcomes));
                 entry "failed_count"
                   (JInt (Z.of_nat (length (refused_ids snapshot outcomes))));
                 entry "failed_users" (JList (refused_ids snapshot outcomes))]
         end,
       {| disk := touched (disk w); log := log w ++ l;
          pushed := pushed w ++ map (fun u => (u, text)) snapshot;
          replied := replied w |}).
Proof.
  intros Hreq Htext Hs snapshot outcomes.
  destruct (read_user_ids_run w Hs) as (l0 & Hread & _).
  unfold broadcast_message, try_except. rewrite Hreq. simpl.
  destruct text as [| c text]; [done |]. simpl.
  unfold bind at 1. rewrite Hread.
  subst outcomes. subst snapshot.
  destruct (listed (disk w)) as [| u us].
  - exists l0. unfold ret, after. simpl. by rewrite app_nil_r.
  - set (w1 := after w (touched (disk w)) l0).
    destruct (broadcast_loop_run push_accepts (c :: text) (u :: us) 0 [] w1)
      as [l1 Hloop].
    unfold bind. rewrite Hloop. unfold ret.
    exists (l0 ++ l1). unfold w1, after. simpl. by rewrite app_assoc.
Qed.

(** ** The model at work *)

Example greeting_is_answered :
  exists w',
    handle_message (fun _ _ _ => true) ascii_lower
      {| source_user_id := py "U1"; message_text := py " Hello ";
         reply_token := py "token" |}
      (boot blank_disk)
    = (Return tt, w')
    /\ replied w' = [(py "token", py "สวัสดีครับ! 😊" ++ [LF] ++ py "User ID: U1")]
    /\ content (disk w') = Some (py "U1" ++ [LF]).
Proof. eexists. split_and!; vm_compute; reflexivity. Qed.

Example remove_rewrites_the_file :
  exists w',
    remove_user_id (py "U2") three_users = (Return true, w')
    /\ content (disk w') = Some (py "U1" ++ [LF] ++ py "U3" ++ [LF])
    /\ listing w' = Return [py "U1"; py "U3"].
Proof. eexists. split_and!; vm_compute; reflexivity. Qed.

(** A read that fails makes every identifier look new: on a disk that
    can be written but not read, saving a listed identifier appends it a
    second time. *)
Example save_on_unreadable_disk :
  let d := {| content := Some (py "U1" ++ [LF]); statable := true;
              creatable := true; readable := false; writable := true |} in
  exists w',
    save_user_id (py "U1") (boot d) = (Return true, w')
    /\ content (disk w') = Some (py "U1" ++ [LF] ++ py "U1" ++ [LF]).
Proof. eexists. split; vm_compute; reflexivity. Qed.

(** * Properties *)

(** ** Uniqueness of the listing *)

(** C1 (defect).  [save_user_id] is documented as saving without
    duplicates, and the listing is meant to stay duplicate-free.  On a
    file holding the single record [a], saving the identifier [" a"]
    (one leading blank) finds no equal entry, reports a new insertion,
    and the listing then holds [a] twice. *)
Theorem save_padded_id_duplicates :
  let w := boot (disk_with (py "a" ++ [LF])) in
  listing w = Return [py "a"]
  /\ NoDup [py "a"]
  /\ fst (save_user_id (py " a") w) = Return true
  /\ listing (snd (save_user_id (py " a") w)) = Return [py "a"; py "a"]
  /\ ~ NoDup [py "a"; py "a"].
Proof.
  split_and!.
  - vm_compute. reflexivity.
  - apply NoDup_singleton.
  - vm_compute. reflexivity.
  - vm_compute. reflexivity.
  - rewrite NoDup_cons. intros [H _]. apply H. by left.
Qed.

(** ** Broadcast *)

(** C2 (defect).  With an empty (or missing) text the handler raises the
    400 validation error before reading the store or pushing anything,
    but does so inside its own [try]: the [except Exception] clause
    catches it, logs it, and the caller receives status 500.  No push is
    made and the disk is untouched. *)
Theorem broadcast_empty_text_is_server_error push_accepts request w :
  default [] (dict_get request "text") = [] ->
  exists w',
    broadcast_message push_accepts request w
    = (Raise (HTTPException 500 (Formatted "Error broadcasting: " text_required)), w')
    /\ pushed w' = pushed w
    /\ disk w' = disk w
    /\ log w' = log w ++ [(ERROR, Error_in_broadcast text_required)].
Proof.
  intros Hempty. unfold broadcast_message, try_except. rewrite Hempty. simpl.
  eexists. split; [reflexivity |]. done.
Qed.

Lemma broadcast_empty_text_witness :
  exists w',
    broadcast_message (fun _ _ _ => true) [entry "text" []] (boot blank_disk)
    = (Raise (HTTPException 500 (Formatted "Error broadcasting: " text_required)), w')
    /\ pushed w' = [].
Proof.
  destruct (broadcast_empty_text_is_server_error
              (fun _ _ _ => true) [entry "text" []] (boot blank_disk) eq_refl)
    as (w' & H & Hp & _).
  exists w'. split; [exact H | exact Hp].
Defined.

(** C3, as stated, at an empty store: the reply carries no
    [success_count] and no [failed_users] at all. *)
Lemma broadcast_no_subscribers_has_no_counts :
  let w := boot blank_disk in
  listing w = Return []
  /\ exists r w',
       broadcast_message (fun _ _ _ => true) [entry "text" (py "hi")] w = (Return r, w')
       /\ dict_get r "success_count" = None
       /\ dict_get r "failed_users" = None.
Proof.
  split; [vm_compute; reflexivity |].
  eexists _, _. split; [vm_compute; reflexivity |]. split; reflexivity.
Qed.

(** C3 (amended).  For a non-empty text and the snapshot returned by
    [read_user_ids], the pushes made are exactly one per snapshot entry,
    in order.  When the snapshot is non-empty the reply reports the
    snapshot length, the number of accepted pushes, and the refused
    identifiers in the order met; when it is empty the reply is the
    two-field "no users" answer. *)
Theorem broadcast_accounting push_accepts request text snapshot w :
  dict_get request "text" = Some text ->
  text <> [] ->
  listing w = Return snapshot ->
  let outcomes := push_outcomes push_accepts (pushed w) text snapshot in
  exists w',
    pushed w' = pushed w ++ map (fun u => (u, text)) snapshot
    /\ (snapshot <> [] ->
        broadcast_message push_accepts request w
        = (Return
             [entry "message" (JStr "Broadcast completed");
              entry "total_users" (JInt (Z.of_nat (length snapshot)));
              entry "success_count" (JInt (successes outcomes));
              entry "failed_count"
                (JInt (Z.of_nat (length (refused_ids snapshot outcomes))));
              entry "failed_users" (JList (refused_ids snapshot outcomes))],
           w'))
    /\ (snapshot = [] ->
        broadcast_message push_accepts request w
        = (Return
             [entry "message" (JStr "No users to send message to");
              entry "total_users" (JInt 0)],
           w')).
Proof.
  intros Hreq Htext Hsnap outcomes.
  apply listing_Return in Hsnap as [Hstat Hsnap].
  destruct (broadcast_message_run push_accepts request text w Hreq Htext Hstat)
    as [l Hrun].
  rewrite <- Hsnap in Hrun. fold outcomes in Hrun.
  exists {| disk := touched (disk w); log := log w ++ l;
            pushed := pushed w ++ map (fun u => (u, text)) snapshot;
            replied := replied w |}.
  split; [| split; intros Hs; rewrite Hrun].
  - reflexivity.
  - destruct snapshot; [done | reflexivity].
  - destruct snapshot; [reflexivity | discriminate].
Qed.

Lemma broadcast_accounting_witness :
  exists w',
    broadcast_message all_but_U2 [entry "text" (py "hi")] three_users
    = (Return
         [entry "message" (JStr "Broadcast completed");
          entry "total_users" (JInt 3);
          entry "success_count" (JInt 2);
          entry "failed_count" (JInt 1);
          entry "failed_users" (JList [py "U2"])],
       w')
    /\ pushed w' = [(py "U1", py "hi"); (py "U2", py "hi"); (py "U3", py "hi")].
Proof.
  destruct (broadcast_accounting all_but_U2 [entry "text" (py "hi")] (py "hi")
              [py "U1"; py "U2"; py "U3"] three_users)
    as (w' & Hp & Hfull & _).
  - reflexivity.
  - discriminate.
  - vm_compute. reflexivity.
  - exists w'. split; [| exact Hp]. apply Hfull. discriminate.
Defined.

(** ** Saving an identifier *)

(** C4, as stated, at the empty identifier on an empty store: both calls
    report a new insertion, the second call writes again, and the count
    does not move. *)
Lemma save_twice_empty_id :
  let w := boot blank_disk in
  let w1 := snd (save_user_id [] w) in
  let w2 := snd (save_user_id [] w1) in
  listing w = Return []
  /\ fst (save_user_id [] w) = Return true
  /\ fst (save_user_id [] w1) = Return true
  /\ content (disk w1) = Some [LF]
  /\ content (disk w2) = Some [LF; LF]
  /\ counting w = Return 0%nat
  /\ counting w2 = Return 0%nat.
Proof. split_and!; vm_compute; reflexivity. Qed.

(** C4 (amended).  On a healthy disk whose file is empty or ends with a
    line feed, for an identifier that is non-empty, has no whitespace at
    either end and no line break, can be encoded, and is not listed: the
    first save returns true, the second returns false and leaves the
    disk exactly as it was, and the count has grown by one. *)
Theorem save_twice x w n :
  well_formed_id x = true ->
  healthy (disk w) ->
  terminated (file_text (disk w)) ->
  (forall us, listing w = Return us -> x ∉ us) ->
  counting w = Return n ->
  exists w1 w2,
    save_user_id x w = (Return true, w1)
    /\ save_user_id x w1 = (Return false, w2)
    /\ disk w2 = disk w1
    /\ counting w2 = Return (S n).
Proof.
  intros Hx Hh Ht Hnew Hn.
  specialize (Hnew _ (listing_healthy w Hh)).
  rewrite counting_healthy in Hn by done. injection Hn as Hn.
  destruct (save_user_id_run x w) as (l1 & H1 & _).
  rewrite save_effect_healthy, bool_decide_eq_false_2 in H1
    by (done || by apply well_formed_encodable).
  cbn [fst snd] in H1. set (w1 := after w _ l1) in H1.
  assert (Hh1 : healthy (disk w1)) by done.
  assert (Hl1 : parse_users (file_text (disk w1)) = parse_users (file_text (disk w)) ++ [x]).
  { unfold w1. simpl. rewrite file_text_set_content.
    rewrite parse_users_app, parse_users_record
      by (done || by apply well_formed_record).
    done. }
  destruct (save_user_id_run x w1) as (l2 & H2 & _).
  rewrite save_effect_healthy, bool_decide_eq_true_2 in H2
    by (done || (by apply well_formed_encodable)
        || (rewrite Hl1; apply elem_of_app; right; by left)).
  cbn [fst snd] in H2.
  eexists _, _. split_and!; [exact H1 | exact H2 | |].
  - unfold w1. simpl. rewrite file_text_set_content. done.
  - rewrite counting_healthy by done. f_equal. cbn [after disk].
    rewrite file_text_set_content, Hl1.
    rewrite length_app. simpl. lia.
Qed.

Lemma save_twice_witness :
  exists w1 w2,
    save_user_id (py "U1") (boot blank_disk) = (Return true, w1)
    /\ save_user_id (py "U1") w1 = (Return false, w2)
    /\ disk w2 = disk w1
    /\ counting w2 = Return 1%nat.
Proof.
  apply (save_twice (py "U1") (boot blank_disk) 0).
  - reflexivity.
  - by repeat split.
  - by left.
  - intros us [= <-]. apply not_elem_of_nil.
  - reflexivity.
Defined.

(** ** Serialized callers *)

(** C5, as stated, at the two distinct identifiers [a] and [" "] (one
    blank): both saves succeed, yet the final listing holds [a] alone. *)
Lemma serialized_saves_blank_id :
  let ids := [py "a"; py " "] in
  let w := boot blank_disk in
  NoDup ids
  /\ fst (save_each ids w) = Return [true; true]
  /\ listing (snd (save_each ids w)) = Return [py "a"]
  /\ py " " ∉ [py "a"].
Proof.
  split_and!.
  - apply (bool_decide_unpack _). vm_compute. exact I.
  - vm_compute. reflexivity.
  - vm_compute. reflexivity.
  - apply (bool_decide_unpack _). vm_compute. exact I.
Qed.

(** C5 (amended).  Mutual exclusion over the whole read-modify-write
    makes the callers run one after the other in some order.  For [N]
    distinct identifiers, each non-empty, without whitespace at either
    end, without line break and encodable, on a healthy disk with an
    empty store: whatever the order, every save returns true and the
    final listing is that order, hence exactly the [N] identifiers, each
    once. *)
Theorem serialized_saves ids order w :
  NoDup ids ->
  Forall (fun x => well_formed_id x = true) ids ->
  order ≡ₚ ids ->
  healthy (disk w) ->
  file_text (disk w) = [] ->
  exists w',
    save_each order w = (Return (replicate (length ids) true), w')
    /\ listing w' = Return order
    /\ NoDup order
    /\ length order = length ids
    /\ (forall x, x ∈ order <-> x ∈ ids).
Proof.
  intros Hnd Hwf Hperm Hh Hempty.
  assert (Hnd' : NoDup order) by (by rewrite Hperm).
  assert (Hwf' : Forall (fun x => well_formed_id x = true) order) by (by rewrite Hperm).
  assert (Hl0 : listed (disk w) = []) by (by rewrite listed_healthy, Hempty).
  destruct (save_each_run order w) as (rs & w' & Hrun & Hh' & _ & Hls & Hall);
    [done | by left; rewrite Hempty | done |].
  assert (Hrs : rs = replicate (length order) true).
  { apply Hall; [done |]. intros x _. rewrite Hl0. apply not_elem_of_nil. }
  subst rs.
  exists w'. split_and!.
  - by rewrite <- Hperm.
  - rewrite listing_statable, Hls, Hl0 by (by apply healthy_statable).
    f_equal. simpl.
    clear. induction order as [| x xs IH]; simpl; [done | by rewrite IH].
  - done.
  - by rewrite Hperm.
  - intros x. by rewrite Hperm.
Qed.

Lemma serialized_saves_witness :
  exists w',
    save_each [py "U2"; py "U3"; py "U1"] (boot blank_disk)
    = (Return [true; true; true], w')
    /\ listing w' = Return [py "U2"; py "U3"; py "U1"].
Proof.
  destruct (serialized_saves [py "U1"; py "U2"; py "U3"]
              [py "U2"; py "U3"; py "U1"] (boot blank_disk))
    as (w' & H1 & H2 & _).
  - apply (bool_decide_unpack _). vm_compute. exact I.
  - repeat constructor.
  - apply (bool_decide_unpack _). vm_compute. exact I.
  - by repeat split.
  - reflexivity.
  - exists w'. split; [exact H1 | exact H2].
Defined.

(** ** Reloading the store *)

(** An identifier that the listing never shows is not shown after a
    restart either: saving [U1] and then [" "] (one blank) puts both
    lines in the file, and the listing is [U1] alone before and after. *)
Example reload_blank_id :
  let xs := [py "U1"; py " "] in
  let w := boot blank_disk in
  let w' := snd (save_each xs w) in
  fst (save_each xs w) = Return [true; true]
  /\ content (disk w') = Some (py "U1" ++ [LF] ++ py " " ++ [LF])
  /\ listing w' = Return [py "U1"]
  /\ listing (restart w') = Return [py "U1"].
Proof. split_and!; vm_compute; reflexivity. Qed.

(** C9.  The store keeps nothing but the file.  For every disk and
    every sequence of saves, whatever the identifiers: the saves all
    return, the file afterwards is the file before followed by one line
    per identifier reported as new, in the order of the calls, and
    reading the store after a restart gives exactly what reading it
    before the restart gives: the same identifiers in the same order
    (and the same error when [stat] is refused).  On a healthy disk with
    an empty file and identifiers that are non-empty, without whitespace
    at either end, without line break and encodable, that listing is the
    identifiers reported as new, in the order they were appended. *)
Theorem reload_after_saves xs w :
  exists rs w',
    save_each xs w = (Return rs, w')
    /\ length rs = length xs
    /\ file_text (disk w') = file_text (disk w) ++ lines_of (accepted xs rs)
    /\ listing (restart w') = listing w'
    /\ (healthy (disk w) -> file_text (disk w) = [] ->
        Forall (fun x => well_formed_id x = true) xs ->
        listing (restart w') = Return (accepted xs rs)).
Proof.
  destruct (save_each_appends xs w) as (rs & w' & Hrun & Hlen & Hft).
  exists rs, w'. split_and!; [done | done | done | by apply listing_same_disk |].
  intros Hh Hempty Hwf.
  destruct (save_each_run xs w) as (rs' & w'' & Hrun' & Hh' & _ & Hls & _);
    [done | by left; rewrite Hempty | done |].
  rewrite Hrun in Hrun'. injection Hrun' as <- <-.
  rewrite (listed_healthy (disk w)), Hempty in Hls by done.
  rewrite listing_statable by (by apply healthy_statable).
  cbn [restart disk]. by rewrite Hls.
Qed.

Lemma reload_after_saves_witness :
  exists w',
    save_each [py "U1"; py "U2"; py "U1"] (boot blank_disk)
    = (Return [true; true; false], w')
    /\ listing w' = Return [py "U1"; py "U2"]
    /\ listing (restart w') = Return [py "U1"; py "U2"].
Proof.
  destruct (reload_after_saves [py "U1"; py "U2"; py "U1"] (boot blank_disk))
    as (rs & w' & Hrun & _ & _ & Hsame & Hre).
  assert (Hrs : rs = [true; true; false]).
  { assert (E : fst (save_each [py "U1"; py "U2"; py "U1"] (boot blank_disk))
                = Return rs) by (by rewrite Hrun).
    vm_compute in E. by injection E. }
  subst rs. exists w'.
  assert (Hl : listing (restart w') = Return [py "U1"; py "U2"]).
  { apply Hre; [by repeat split | reflexivity | repeat constructor]. }
  split_and!; [exact Hrun | by rewrite <- Hsame | exact Hl].
Defined.

(** ** Whitespace-only identifiers *)




(** ** Removing an absent identifier *)

(** C8.  When the identifier is not in the listing, [remove_user_id]
    returns false; the disk is left exactly as a plain [read_user_ids]
    leaves it (an existing file keeps its content: nothing is written),
    and the listing is unchanged. *)
Theorem remove_absent x w us :
  listing w = Return us ->
  x ∉ us ->
  exists w',
    remove_user_id x w = (Return false, w')
    /\ listing w' = Return us
    /\ disk w' = disk (snd (read_user_ids w))
    /\ (forall text, content (disk w) = Some text -> disk w' = disk w).
Proof.
  intros Hl Hx. apply listing_Return in Hl as [Hs ->].
  destruct (remove_user_id_run x w) as (l & Hrun & _).
  unfold remove_effect in Hrun. rewrite Hs in Hrun. cbn [negb] in Hrun.
  rewrite bool_decide_eq_false_2 in Hrun by done. cbn [fst snd] in Hrun.
  eexists. split_and!; [exact Hrun | | |].
  - rewrite listing_statable; cbn [after disk];
      [by rewrite listed_touched | by rewrite statable_touched].
  - destruct (read_user_ids_run w Hs) as (l' & -> & _). done.
  - intros text Ht. simpl. by apply touched_content with text.
Qed.

Lemma remove_absent_witness :
  exists w',
    remove_user_id (py "U9") three_users = (Return false, w')
    /\ listing w' = Return [py "U1"; py "U2"; py "U3"]
    /\ disk w' = disk three_users.
Proof.
  destruct (remove_absent (py "U9") three_users [py "U1"; py "U2"; py "U3"])
    as (w' & H1 & H2 & _ & H4).
  - reflexivity.
  - apply (bool_decide_unpack _). vm_compute. exact I.
  - exists w'. split_and!; [exact H1 | exact H2 | by eapply H4].
Defined.

(** ** Storage errors *)

(** When [stat] answers, none of the three store operations raises,
    whatever else the disk refuses.  If opening the file for reading
    raises, [read_user_ids] returns the empty list; if the append (resp.
    the rewrite) that [save_user_id] (resp. [remove_user_id]) attempts
    raises, the operation returns false; and each time the error is
    logged at level ERROR. *)
Lemma store_faults_after_stat_are_caught x w :
  statable (disk w) = true ->
  (exists users w',
     read_user_ids w = (Return users, w')
     /\ forall e, open_read (disk w') = Raise e ->
          users = [] /\ (ERROR, Error_reading_users e) ∈ log w')
  /\ (exists b w',
        save_user_id x w = (Return b, w')
        /\ forall e, x ∉ listed (disk w) ->
             fst (open_append (x ++ [LF]) (touched (disk w))) = Raise e ->
             b = false /\ (ERROR, Error_saving_user_id e) ∈ log w')
  /\ (exists b w',
        remove_user_id x w = (Return b, w')
        /\ forall e, x ∈ listed (disk w) ->
             fst (open_write (list_remove x (listed (disk w))) (touched (disk w)))
             = Raise e ->
             b = false /\ (ERROR, Error_removing_user_id e) ∈ log w').
Proof.
  intros Hs. split_and!.
  - destruct (read_user_ids_run w Hs) as (l & Hrun & Hlog).
    eexists _, _. split; [exact Hrun |]. cbn [after disk log].
    intros e He. split.
    + unfold listed. by rewrite He.
    + apply elem_of_app. right. by apply Hlog.
  - destruct (save_user_id_run x w) as (l & Hrun & _ & Hlog).
    eexists _, _. split; [exact Hrun |]. cbn [after log].
    intros e Hx He. split.
    + unfold save_effect. rewrite Hs. cbn [negb].
      rewrite bool_decide_eq_false_2 by done.
      destruct (open_append _ _) as [[] d']; simpl in He; [done | done].
    + apply elem_of_app. right. by apply Hlog.
  - destruct (remove_user_id_run x w) as (l & Hrun & _ & Hlog).
    eexists _, _. split; [exact Hrun |]. cbn [after log].
    intros e Hx He. split.
    + unfold remove_effect. rewrite Hs. cbn [negb].
      rewrite bool_decide_eq_true_2 by done.
      destruct (open_write _ _) as [[] d']; simpl in He; [done | done].
    + apply elem_of_app. right. by apply Hlog.
Qed.

Example faults_on_locked_and_read_only_disks :
  (exists w', read_user_ids (boot locked_disk) = (Return [], w')
              /\ (ERROR, Error_reading_users OSError) ∈ log w')
  /\ (exists w', save_user_id (py "U4") (boot read_only_disk) = (Return false, w')
                 /\ (ERROR, Error_saving_user_id OSError) ∈ log w')
  /\ (exists w', remove_user_id (py "U2") (boot read_only_disk) = (Return false, w')
                 /\ (ERROR, Error_removing_user_id OSError) ∈ log w').
Proof.
  split_and!; eexists; (split; [vm_compute; reflexivity |]);
    cbn [log]; by left.
Qed.

(** C7 (defect).  [read_user_ids] calls [ensure_users_file_exists], and
    with it [Path.exists], before its [try] block.  When [stat] on the
    file is refused (the directory may not be searched, say), the error
    leaves [read_user_ids]: its caller gets the exception, not the empty
    list, and nothing is logged; a caller that counts the users gets the
    exception as well.  [save_user_id] and [remove_user_id] make the
    same read inside their own [try]: they log the error and return
    false. *)
Theorem read_user_ids_raises_when_stat_refused x w :
  statable (disk w) = false ->
  read_user_ids w = (Raise OSError, w)
  /\ get_user_count w = (Raise OSError, w)
  /\ save_user_id x w
     = (Return false, after w (disk w) [(ERROR, Error_saving_user_id OSError)])
  /\ remove_user_id x w
     = (Return false, after w (disk w) [(ERROR, Error_removing_user_id OSError)]).
Proof.
  intros Hs. pose proof (read_user_ids_refused w Hs) as Hread.
  split_and!.
  - exact Hread.
  - unfold get_user_count, bind. by rewrite Hread.
  - unfold save_user_id, try_except, bind. by rewrite Hread.
  - unfold remove_user_id, try_except, bind. by rewrite Hread.
Qed.

Lemma read_user_ids_raises_witness :
  read_user_ids (boot unsearchable_disk) = (Raise OSError, boot unsearchable_disk)
  /\ counting (boot unsearchable_disk) = Raise OSError
  /\ fst (save_user_id (py "U4") (boot unsearchable_disk)) = Return false.
Proof.
  destruct (read_user_ids_raises_when_stat_refused (py "U4")
              (boot unsearchable_disk) eq_refl) as (H1 & H2 & H3 & _).
  split_and!; [exact H1 | | by rewrite H3].
  unfold counting. by rewrite H2.
Defined.

(** ** Reply selection *)

(** C6.  When the trimmed, lower-cased text is none of the greeting or
    thanks phrases and does not contain "user id", no branch of the
    chain assigns [reply_text]: the name is unbound where the reply
    would be sent, the handler stops there with [UnboundLocalError], and
    no reply call is made. *)
Theorem unmatched_text_leaves_reply_unbound reply_accepts lower event w :
  let text := strip (message_text event) in
  lower text ∉ [py "สวัสดี"; py "hello"; py "hi"; py "หวัดดี"] ->
  lower text ∉ [py "ขอบคุณ"; py "thank you"; py "thanks"] ->
  contains (py "user id") (lower text) = false ->
  reply_text_binding lower (source_user_id event) text = None
  /\ exists w',
       handle_message reply_accepts lower event w
       = (Raise (UnboundLocalError "reply_text"), w')
       /\ replied w' = replied w.
Proof.
  intros text Hgreet Hthanks Hid.
  assert (Hnone : reply_text_binding lower (source_user_id event) text = None).
  { unfold reply_text_binding.
    rewrite !bool_decide_eq_false_2 by done. by rewrite Hid. }
  split; [done |].
  unfold handle_message. fold text. rewrite Hnone.
  unfold bind at 1. unfold logger at 1. unfold bind at 1.
  match goal with
  | |- context [save_user_id ?u ?v] =>
      destruct (save_user_id_run u v) as (l & -> & _)
  end.
  eexists. split; [reflexivity | done].
Qed.

Lemma unmatched_text_witness :
  exists w',
    handle_message (fun _ _ _ => true) ascii_lower small_talk (boot blank_disk)
    = (Raise (UnboundLocalError "reply_text"), w')
    /\ replied w' = [].
Proof.
  destruct (unmatched_text_leaves_reply_unbound
              (fun _ _ _ => true) ascii_lower small_talk (boot blank_disk))
    as [_ H].
  - apply (bool_decide_unpack _). vm_compute. exact I.
  - apply (bool_decide_unpack _). vm_compute. exact I.
  - reflexivity.
  - exact H.
Defined.

(** * Further properties *)

(** ** Helper lemmas *)

Lemma encodable_universal_newlines b s :
  encodable s = true -> encodable (universal_newlines b s) = true.
Proof.
  unfold encodable. revert b.
  induction s as [| c s IH]; intros b; simpl; [done |].
  intros [Hc Hs]%andb_true_iff.
  destruct (c =? CR); simpl; [by apply IH |].
  destruct ((c =? LF) && b); simpl; [by apply IH |].
  rewrite Hc. by apply IH.
Qed.

Lemma forallb_readlines (P : char -> bool) cur s l :
  forallb P cur = true -> forallb P s = true ->
  l ∈ readlines cur s -> forallb P l = true.
Proof.
  revert cur. induction s as [| c s IH]; intros cur Hcur Hs Hl.
  - destruct cur as [| c cur]; [by apply elem_of_nil in Hl |].
    cbn [readlines] in Hl. apply list_elem_of_singleton in Hl. subst l.
    by rewrite forallb_rev.
  - simpl in Hs. apply andb_true_iff in Hs as [Hc Hs].
    cbn [readlines] in Hl. destruct (c =? LF).
    + apply elem_of_cons in Hl as [-> | Hl]; [| by apply (IH [])].
      rewrite forallb_rev. simpl. by rewrite Hc.
    + apply (IH (c :: cur)); [| done | done]. simpl. by rewrite Hc.
Qed.

Lemma parse_users_encodable text :
  encodable text = true ->
  Forall (fun u => encodable u = true) (parse_users text).
Proof.
  intros Ht. apply Forall_forall. intros u Hu. unfold parse_users in Hu.
  assert (Hall : forall l, l ∈ readlines [] (universal_newlines false text) ->
                           encodable l = true).
  { intros l Hl.
    apply (forallb_readlines scalar [] (universal_newlines false text));
      [done | by apply encodable_universal_newlines | done]. }
  induction (readlines [] (universal_newlines false text)) as [| l ls IH];
    simpl in Hu; [by apply elem_of_nil in Hu |].
  assert (Hrest : u ∈ stripped_nonblank ls -> encodable u = true).
  { intros H. apply IH; [done |]. intros l' Hl'. apply Hall. by right. }
  destruct (truthy (strip l)); [| by apply Hrest].
  apply elem_of_cons in Hu as [-> | Hu]; [| by apply Hrest].
  apply forallb_strip, Hall. by left.
Qed.

Lemma write_users_all users :
  Forall (fun u => encodable u = true) users ->
  forall text, write_users users text = (Return tt, text ++ lines_of users).
Proof.
  induction 1 as [| u users Hu _ IH]; intros text; simpl.
  - unfold lines_of. simpl. by rewrite app_nil_r.
  - assert (He : encodable (u ++ [LF]) = true).
    { unfold encodable in *. by rewrite forallb_app, Hu. }
    rewrite He, IH. unfold lines_of. simpl. by rewrite <- !app_assoc.
Qed.

Lemma list_remove_snoc_fresh x l : x ∉ l -> list_remove x (l ++ [x]) = l.
Proof.
  induction l as [| y l IH]; simpl; intros Hx.
  - by rewrite bool_decide_eq_true_2.
  - apply not_elem_of_cons in Hx as [Hxy Hx].
    rewrite bool_decide_eq_false_2 by done. by rewrite IH.
Qed.

Lemma list_remove_other x y l : y <> x -> y ∈ list_remove x l <-> y ∈ l.
Proof.
  intros Hyx. induction l as [| z l IH]; simpl; [done |].
  destruct (bool_decide (z = x)) eqn:E.
  - apply bool_decide_eq_true in E. subst z.
    rewrite elem_of_cons. split; [by right | by intros [? | ?]].
  - rewrite !elem_of_cons, IH. done.
Qed.

Lemma list_remove_NoDup x l : NoDup l -> x ∉ list_remove x l.
Proof.
  induction 1 as [| z l Hz Hnd IH]; simpl; [apply not_elem_of_nil |].
  destruct (bool_decide (z = x)) eqn:E.
  - apply bool_decide_eq_true in E. by subst z.
  - apply bool_decide_eq_false in E. apply not_elem_of_cons. split; [done | done].
Qed.

Lemma list_remove_length x l : x ∈ l -> S (length (list_remove x l)) = length l.
Proof.
  induction l as [| z l IH]; simpl; [by intros ?%elem_of_nil |].
  destruct (bool_decide (z = x)) eqn:E; [done |].
  apply bool_decide_eq_false in E.
  intros [-> | Hx]%elem_of_cons; [done |]. simpl. by rewrite IH.
Qed.

Lemma remove_effect_listed x d :
  healthy d -> encodable (file_text d) = true ->
  x ∈ parse_users (file_text d) ->
  remove_effect x d
  = (true, set_content (Some (lines_of (list_remove x (parse_users (file_text d))))) d).
Proof.
  intros Hh Henc Hx. unfold remove_effect.
  rewrite (healthy_statable d Hh). cbn [negb].
  rewrite listed_healthy, touched_healthy by done.
  rewrite bool_decide_eq_true_2 by done.
  destruct Hh as (_ & _ & _ & Hw).
  unfold open_write, open_for_write. simpl. rewrite Hw.
  rewrite write_users_all; [done |].
  apply Forall_forall. intros u Hu.
  apply (proj1 (Forall_forall _ _) (parse_users_encodable _ Henc)).
  by apply (elem_of_sublist (list_remove x (parse_users (file_text d)))),
     list_remove_sublist.
Qed.

Lemma parse_users_rewritten text kept :
  kept `sublist_of` parse_users text ->
  parse_users (lines_of kept) = kept.
Proof.
  intros Hsub. apply parse_users_lines_of, Forall_forall. intros u Hu.
  apply (parse_users_records text). by apply (elem_of_sublist kept).
Qed.

(** ** Reading *)

(** X1.  Reading never changes what is stored: on every disk the file
    text is the same before and after, a file that exists is left
    exactly as it was, and an immediate second read has the same
    outcome.  [read_user_ids] returns a list whenever [stat] on the file
    answers; when [stat] is refused it raises [OSError] to its caller
    and changes nothing, the log included. *)
Theorem read_user_ids_keeps_file w :
  exists r w',
    read_user_ids w = (r, w')
    /\ file_text (disk w') = file_text (disk w)
    /\ (path_exists (disk w) = Return true -> disk w' = disk w)
    /\ listing w' = r
    /\ (statable (disk w) = true -> exists users, r = Return users)
    /\ (statable (disk w) = false -> r = Raise OSError /\ w' = w).
Proof.
  destruct (statable (disk w)) eqn:Hs.
  - destruct (read_user_ids_run w Hs) as (l & Hrun & _).
    eexists _, _. split; [exact Hrun |]. cbn [after disk]. split_and!.
    + apply file_text_touched.
    + unfold path_exists. rewrite Hs.
      destruct (content (disk w)) as [t |] eqn:E; [| done].
      intros _. by apply touched_content with t.
    + rewrite listing_statable; cbn [after disk];
        [by rewrite listed_touched | by rewrite statable_touched].
    + intros _. by eexists.
    + done.
  - exists (Raise OSError), w. rewrite read_user_ids_refused by done.
    split_and!; [done | done | | | done | done].
    + unfold path_exists. by rewrite Hs.
    + by rewrite listing_run, Hs.
Qed.

(** X2.  Whatever the file holds (blank lines, padding, CR or CRLF line
    ends, a last line without terminator), every identifier that is
    listed is non-empty, has no whitespace at either end and no line
    break; and writing the listing back one identifier per line, as
    [remove_user_id] does, reads back as the same listing. *)
Theorem listing_survives_rewrite text :
  Forall (fun u => record_like u = true) (parse_users text)
  /\ parse_users (lines_of (parse_users text)) = parse_users text.
Proof.
  assert (H : Forall (fun u => record_like u = true) (parse_users text)).
  { apply Forall_forall. intros u. apply parse_users_records. }
  split; [done | by apply parse_users_lines_of].
Qed.

(** ** Removing and saving *)

(** X3.  On a healthy disk holding valid text, removing a listed
    identifier returns true, rewrites the file as the remaining
    identifiers one per line, and the listing afterwards is the former
    listing without the first occurrence of the identifier, the others
    in their order. *)
Theorem remove_listed x w users :
  healthy (disk w) ->
  encodable (file_text (disk w)) = true ->
  listing w = Return users ->
  x ∈ users ->
  exists w',
    remove_user_id x w = (Return true, w')
    /\ content (disk w') = Some (lines_of (list_remove x users))
    /\ listing w' = Return (list_remove x users).
Proof.
  intros Hh Henc. rewrite listing_healthy by done.
  intros [= <-] Hx.
  destruct (remove_user_id_run x w) as (l & Hrun & _).
  rewrite remove_effect_listed in Hrun by done. cbn [fst snd] in Hrun.
  eexists. split_and!; [exact Hrun | done |].
  rewrite listing_healthy by done. cbn [after disk].
  rewrite file_text_set_content.
  f_equal. apply (parse_users_rewritten (file_text (disk w))), list_remove_sublist.
Qed.

Lemma remove_listed_witness :
  exists w',
    remove_user_id (py "U2")
      (boot (disk_with (py "U1" ++ [CR; LF; LF] ++ py "  U2 " ++ [LF] ++ py "U3")))
    = (Return true, w')
    /\ content (disk w') = Some (py "U1" ++ [LF] ++ py "U3" ++ [LF]).
Proof.
  destruct (remove_listed (py "U2")
              (boot (disk_with (py "U1" ++ [CR; LF; LF] ++ py "  U2 " ++ [LF]
                                ++ py "U3")))
              [py "U1"; py "U2"; py "U3"])
    as (w' & H1 & H2 & _).
  - by repeat split.
  - reflexivity.
  - reflexivity.
  - apply (bool_decide_unpack _). vm_compute. exact I.
  - exists w'. split; [exact H1 | exact H2].
Defined.

(** X4.  On a healthy disk holding valid text whose listing has no
    duplicate, after the removal of a listed identifier that identifier
    is no longer listed, the count has dropped by exactly one, and every
    other identifier is listed exactly when it was before. *)
Theorem remove_unlists x w users :
  healthy (disk w) ->
  encodable (file_text (disk w)) = true ->
  listing w = Return users ->
  NoDup users ->
  x ∈ users ->
  exists w' users',
    remove_user_id x w = (Return true, w')
    /\ listing w' = Return users'
    /\ (x ∉ users')
    /\ S (length users') = length users
    /\ (forall y, y <> x -> y ∈ users' <-> y ∈ users).
Proof.
  intros Hh Henc. rewrite listing_healthy by done.
  intros [= <-] Hnd Hx.
  destruct (remove_user_id_run x w) as (l & Hrun & _).
  rewrite remove_effect_listed in Hrun by done. cbn [fst snd] in Hrun.
  eexists _, (list_remove x (parse_users (file_text (disk w)))).
  split_and!; [exact Hrun | | | |].
  - rewrite listing_healthy by done. cbn [after disk].
    rewrite file_text_set_content. f_equal.
    apply (parse_users_rewritten (file_text (disk w))), list_remove_sublist.
  - by apply list_remove_NoDup.
  - by apply list_remove_length.
  - intros y Hy. by apply list_remove_other.
Qed.

Lemma remove_unlists_witness :
  exists w',
    remove_user_id (py "U2") three_users = (Return true, w')
    /\ listing w' = Return [py "U1"; py "U3"].
Proof.
  destruct (remove_unlists (py "U2") three_users [py "U1"; py "U2"; py "U3"])
    as (w' & users' & H1 & H2 & _).
  - by repeat split.
  - reflexivity.
  - reflexivity.
  - apply (bool_decide_unpack _). vm_compute. exact I.
  - apply (bool_decide_unpack _). vm_compute. exact I.
  - exists w'. split; [exact H1 |].
    assert (E : listing (snd (remove_user_id (py "U2") three_users)) = Return users')
      by (by rewrite H1).
    vm_compute in E. injection E as <-. exact H2.
Defined.

(** X5.  On a healthy disk whose file holds encodable text and is empty
    or ends with a line feed, saving a well-formed identifier that is
    not listed and removing it again gives back the listing one started
    from: both calls return true and the file ends up holding the former
    listing, one identifier per line. *)
Theorem save_then_remove x w :
  healthy (disk w) ->
  terminated (file_text (disk w)) ->
  encodable (file_text (disk w)) = true ->
  well_formed_id x = true ->
  x ∉ parse_users (file_text (disk w)) ->
  exists w1 w2,
    save_user_id x w = (Return true, w1)
    /\ remove_user_id x w1 = (Return true, w2)
    /\ listing w2 = listing w
    /\ content (disk w2) = Some (lines_of (parse_users (file_text (disk w)))).
Proof.
  intros Hh Ht Henc Hx Hnew.
  destruct (save_user_id_run x w) as (l1 & H1 & _).
  rewrite save_effect_healthy, bool_decide_eq_false_2 in H1
    by (done || by apply well_formed_encodable).
  cbn [fst snd] in H1. set (w1 := after w _ l1) in H1.
  assert (Hft : file_text (disk w1) = file_text (disk w) ++ x ++ [LF]) by done.
  assert (Hl1 : parse_users (file_text (disk w1))
                = parse_users (file_text (disk w)) ++ [x]).
  { rewrite Hft, parse_users_app, parse_users_record
      by (done || by apply well_formed_record). done. }
  destruct (remove_user_id_run x w1) as (l2 & H2 & _).
  rewrite remove_effect_listed in H2.
  - cbn [fst snd] in H2. rewrite Hl1, list_remove_snoc_fresh in H2 by done.
    eexists _, _. split_and!; [exact H1 | exact H2 | | done].
    rewrite !listing_healthy by done. cbn [after disk].
    rewrite file_text_set_content. f_equal.
    by apply (parse_users_rewritten (file_text (disk w))).
  - done.
  - rewrite Hft. unfold encodable in *. rewrite forallb_app, Henc.
    exact (well_formed_encodable x Hx).
  - rewrite Hl1. apply elem_of_app. right. by left.
Qed.

Lemma save_then_remove_witness :
  exists w1 w2,
    save_user_id (py "U4") three_users = (Return true, w1)
    /\ remove_user_id (py "U4") w1 = (Return true, w2)
    /\ listing w2 = listing three_users.
Proof.
  destruct (save_then_remove (py "U4") three_users)
    as (w1 & w2 & H1 & H2 & H3 & _).
  - by repeat split.
  - right. by exists (removelast (file_text (disk three_users))).
  - reflexivity.
  - reflexivity.
  - apply (bool_decide_unpack _). vm_compute. exact I.
  - exists w1, w2. split_and!; [exact H1 | exact H2 | exact H3].
Defined.


(** The unterminated last line of a file is read as a record. *)
Lemma parse_users_unterminated text u :
  terminated text ->
  record_like u = true ->
  parse_users (text ++ u) = parse_users text ++ [u].
Proof.
  intros Ht Hu. rewrite parse_users_app by done. f_equal.
  assert (Hp : parse_users (u ++ [LF]) = [u]) by (by apply parse_users_record).
  rewrite <- Hp. symmetry. apply (parse_users_space u [LF]). done.
Qed.

Lemma record_like_app u x :
  record_like u = true -> record_like x = true -> record_like (u ++ x) = true.
Proof.
  unfold record_like.
  intros [[Hu1 _]%andb_true_iff Hu3]%andb_true_iff
         [[_ Hx2]%andb_true_iff Hx3]%andb_true_iff.
  rewrite forallb_app, Hu3, Hx3, rev_app_distr.
  destruct u as [| c u]; [done |]. simpl in Hu1. simpl. rewrite Hu1.
  destruct (rev x) as [| d r] eqn:E; [done |]. simpl in *. by rewrite Hx2.
Qed.

(** X7.  On a healthy disk, take a file made of any text that is empty
    or ends with a line feed, followed by a last line [u] without
    terminator ([u] non-empty, without whitespace at either end, without
    line break), as a file edited by hand may be.  Saving a well-formed
    identifier [x] that is not listed returns true but glues [x] to that
    last line: the listing was that of the text followed by [u], and
    afterwards it is that of the text followed by [u ++ x]; [x] is not
    listed, and neither is [u] unless the text lists it as well. *)
Theorem save_on_unterminated_file x u text w :
  healthy (disk w) ->
  file_text (disk w) = text ++ u ->
  terminated text ->
  record_like u = true ->
  well_formed_id x = true ->
  x ∉ parse_users text ++ [u] ->
  exists w',
    listing w = Return (parse_users text ++ [u])
    /\ save_user_id x w = (Return true, w')
    /\ listing w' = Return (parse_users text ++ [u ++ x])
    /\ (x ∉ parse_users text ++ [u ++ x])
    /\ (u ∉ parse_users text -> u ∉ parse_users text ++ [u ++ x]).
Proof.
  intros Hh Hft Ht Hu Hx Hnew.
  assert (Hl : parse_users (file_text (disk w)) = parse_users text ++ [u]).
  { rewrite Hft. by apply parse_users_unterminated. }
  assert (Hxne : x <> []) by (intros ->; done).
  assert (Hune : u <> []) by (intros ->; done).
  assert (Hlen : forall a b : str, b <> [] -> a <> b ++ a).
  { intros a b Hb E. apply (f_equal length) in E. rewrite length_app in E.
    destruct b; [done |]. simpl in E. lia. }
  assert (Hlen' : forall a b : str, b <> [] -> a <> a ++ b).
  { intros a b Hb E. apply (f_equal length) in E. rewrite length_app in E.
    destruct b; [done |]. simpl in E. lia. }
  destruct (save_user_id_run x w) as (l & Hrun & _).
  rewrite save_effect_healthy, bool_decide_eq_false_2 in Hrun
    by (done || (by apply well_formed_encodable) || by rewrite Hl).
  cbn [fst snd] in Hrun.
  eexists. split_and!; [| exact Hrun | | |].
  - by rewrite listing_healthy, Hl.
  - rewrite listing_healthy by done. cbn [after disk].
    rewrite file_text_set_content, Hft. f_equal.
    rewrite <- app_assoc, (app_assoc u x [LF]).
    rewrite parse_users_app by done. f_equal.
    apply parse_users_record, record_like_app; [done |].
    by apply well_formed_record.
  - intros [Hin | Hin%list_elem_of_singleton]%elem_of_app.
    + apply Hnew, elem_of_app. by left.
    + by apply (Hlen x u).
  - intros Hu' [Hin | Hin%list_elem_of_singleton]%elem_of_app; [done |].
    by apply (Hlen' u x).
Qed.

Lemma save_on_unterminated_file_witness :
  exists w',
    save_user_id (py "U3")
      (boot (disk_with (py " U1 " ++ [CR; LF; LF] ++ py "U2")))
    = (Return true, w')
    /\ listing w' = Return [py "U1"; py "U2U3"].
Proof.
  destruct (save_on_unterminated_file (py "U3") (py "U2")
              (py " U1 " ++ [CR; LF; LF])
              (boot (disk_with (py " U1 " ++ [CR; LF; LF] ++ py "U2"))))
    as (w' & _ & H1 & H2 & _).
  - by repeat split.
  - reflexivity.
  - right. by exists (py " U1 " ++ [CR; LF]).
  - reflexivity.
  - reflexivity.
  - apply (bool_decide_unpack _). vm_compute. exact I.
  - exists w'. split; [exact H1 | exact H2].
Defined.

(** ** Follow, unfollow and message handlers *)

Lemma send_reply_message_run reply_accepts reply_token text w :
  exists l,
    send_reply_message reply_accepts reply_token text w
    = (Return (reply_accepts (replied w) reply_token text),
       {| disk := disk w; log := log w ++ l; pushed := pushed w;
          replied := replied w ++ [(reply_token, text)] |}).
Proof.
  unfold send_reply_message, try_except, bind, reply_message, logger, ret.
  destruct (reply_accepts (replied w) reply_token text); simpl.
  - exists []. by rewrite app_nil_r.
  - eexists. reflexivity.
Qed.

Lemma handle_follow_run reply_accepts event s :
  exists b w1 l,
    save_user_id (follow_user_id event) (base s) = (Return b, w1)
    /\ pushed w1 = pushed (base s)
    /\ replied w1 = replied (base s)
    /\ handle_follow reply_accepts event s
       = (Return tt,
          {| base := {| disk := disk w1; log := log w1 ++ l; pushed := pushed w1;
                        replied := replied w1
                                   ++ [(follow_reply_token event,
                                        if b then welcome_new else welcome_back)] |};
             notes := notes s ++ [(INFO, New_follower (follow_user_id event))] |}).
Proof.
  destruct (save_user_id_run (follow_user_id event) (base s)) as (l0 & Hsave & _).
  eexists _, _. 
  destruct (send_reply_message_run reply_accepts (follow_reply_token event)
              (if fst (save_effect (follow_user_id event) (disk (base s)))
               then welcome_new else welcome_back)
              (after (base s) (snd (save_effect (follow_user_id event)
                                      (disk (base s)))) l0)) as [l Hsend].
  exists l. split_and!; [exact Hsave | done | done |].
  unfold handle_follow, hbind, note_line, lift, hret, add_note. cbn [base notes].
  rewrite Hsave. cbn [base notes]. rewrite Hsend. reflexivity.
Qed.

(** X8.  [handle_follow] never raises and makes exactly one reply call,
    to the event's reply token, whether or not the platform accepts it.
    The text is the welcome message when [save_user_id] returned true
    and the "welcome back" message when it returned false.  No push is
    made. *)
Theorem follow_replies_once reply_accepts event s :
  exists b w1 s',
    save_user_id (follow_user_id event) (base s) = (Return b, w1)
    /\ handle_follow reply_accepts event s = (Return tt, s')
    /\ disk (base s') = disk w1
    /\ replied (base s')
       = replied (base s)
         ++ [(follow_reply_token event, if b then welcome_new else welcome_back)]
    /\ pushed (base s') = pushed (base s).
Proof.
  destruct (handle_follow_run reply_accepts event s)
    as (b & w1 & l & Hsave & Hp & Hr & Hrun).
  eexists b, w1, _. split_and!; [exact Hsave | exact Hrun | done | |].
  - cbn [base replied]. by rewrite Hr.
  - cbn [base pushed]. by rewrite Hp.
Qed.

(** X9.  On a healthy disk whose file is empty or ends with a line
    feed, a follower with a well-formed identifier who is not listed is
    added at the end of the listing and gets the welcome message; one
    who is listed gets "welcome back" and the file text is unchanged. *)
Theorem follow_new_or_known reply_accepts event s :
  let user_id := follow_user_id event in
  let users := parse_users (file_text (disk (base s))) in
  healthy (disk (base s)) ->
  terminated (file_text (disk (base s))) ->
  well_formed_id user_id = true ->
  exists s',
    handle_follow reply_accepts event s = (Return tt, s')
    /\ (user_id ∉ users ->
        replied (base s')
        = replied (base s) ++ [(follow_reply_token event, welcome_new)]
        /\ listing (base s') = Return (users ++ [user_id]))
    /\ (user_id ∈ users ->
        replied (base s')
        = replied (base s) ++ [(follow_reply_token event, welcome_back)]
        /\ file_text (disk (base s')) = file_text (disk (base s))).
Proof.
  intros user_id users Hh Ht Hwf.
  destruct (handle_follow_run reply_accepts event s)
    as (b & w1 & l & Hsave & Hp & Hr & Hrun).
  destruct (save_user_id_run user_id (base s)) as (l0 & Hsave' & _).
  fold user_id in Hsave. rewrite Hsave' in Hsave.
  rewrite save_effect_healthy in Hsave by (done || by apply well_formed_encodable).
  fold users in Hsave.
  eexists. split; [exact Hrun |]. cbn [base replied disk]. rewrite Hr.
  split; intros Hin.
  - rewrite bool_decide_eq_false_2 in Hsave by done.
    injection Hsave as <- <-. split; [done |].
    rewrite listing_healthy by done. cbn [after disk].
    rewrite file_text_set_content, parse_users_app, parse_users_record
      by (done || by apply well_formed_record).
    done.
  - rewrite bool_decide_eq_true_2 in Hsave by done.
    injection Hsave as <- <-. split; done.
Qed.

Lemma follow_new_or_known_witness :
  exists s',
    handle_follow (fun _ _ _ => true)
      {| follow_user_id := py "U4"; follow_reply_token := py "token" |}
      (start three_users)
    = (Return tt, s')
    /\ replied (base s') = [(py "token", welcome_new)]
    /\ listing (base s') = Return [py "U1"; py "U2"; py "U3"; py "U4"].
Proof.
  destruct (follow_new_or_known (fun _ _ _ => true)
              {| follow_user_id := py "U4"; follow_reply_token := py "token" |}
              (start three_users))
    as (s' & Hrun & Hnew & _).
  - by repeat split.
  - right. by exists (removelast (file_text (disk three_users))).
  - reflexivity.
  - destruct Hnew as [H1 H2].
    { apply (bool_decide_unpack _). vm_compute. exact I. }
    exists s'. split_and!; [exact Hrun | exact H1 | exact H2].
Defined.

(** X10.  If the follower is not listed and the append raises (the file
    cannot be opened for writing, or the identifier cannot be encoded),
    the follower is greeted with "welcome back" although nothing was
    stored: the file text is unchanged. *)
Theorem follow_when_write_fails reply_accepts event s e :
  let user_id := follow_user_id event in
  user_id ∉ listed (disk (base s)) ->
  fst (open_append (user_id ++ [LF]) (touched (disk (base s)))) = Raise e ->
  exists s',
    handle_follow reply_accepts event s = (Return tt, s')
    /\ replied (base s')
       = replied (base s) ++ [(follow_reply_token event, welcome_back)]
    /\ file_text (disk (base s')) = file_text (disk (base s)).
Proof.
  intros user_id Hnew Herr.
  destruct (handle_follow_run reply_accepts event s)
    as (b & w1 & l & Hsave & Hp & Hr & Hrun).
  destruct (save_user_id_run user_id (base s)) as (l0 & Hsave' & _).
  fold user_id in Hsave. rewrite Hsave' in Hsave. injection Hsave as Hb Hw.
  assert (b = false) as ->.
  { rewrite <- Hb. unfold save_effect.
    destruct (statable (disk (base s))); [| done]. cbn [negb].
    rewrite bool_decide_eq_false_2 by done.
    destruct (open_append _ _) as [[] d']; simpl in Herr; [done | done]. }
  eexists. split; [exact Hrun |]. cbn [base replied disk]. rewrite Hr.
  split; [done |]. rewrite <- Hw. cbn [after disk].
  rewrite save_effect_file_text, Hb. apply app_nil_r.
Qed.

Lemma follow_when_write_fails_witness :
  exists s',
    handle_follow (fun _ _ _ => true)
      {| follow_user_id := py "U4"; follow_reply_token := py "token" |}
      (start (boot read_only_disk))
    = (Return tt, s')
    /\ replied (base s') = [(py "token", welcome_back)]
    /\ listing (base s') = Return [py "U1"; py "U2"; py "U3"].
Proof.
  destruct (follow_when_write_fails (fun _ _ _ => true)
              {| follow_user_id := py "U4"; follow_reply_token := py "token" |}
              (start (boot read_only_disk)) OSError)
    as (s' & Hrun & Hr & _).
  - apply (bool_decide_unpack _). vm_compute. exact I.
  - reflexivity.
  - exists s'. split_and!; [exact Hrun | exact Hr |].
    assert (E : listing (base (snd (handle_follow (fun _ _ _ => true)
                  {| follow_user_id := py "U4"; follow_reply_token := py "token" |}
                  (start (boot read_only_disk))))) = listing (base s'))
      by (by rewrite Hrun).
    rewrite <- E. vm_compute. reflexivity.
Defined.

(** X11.  On every disk [handle_unfollow] returns normally, replies
    nothing and pushes nothing.  If moreover the disk is healthy, holds
    encodable text and its listing has no duplicate, the user is not
    listed afterwards (whether or not the user was listed before), and
    every other user is listed exactly when they were before. *)
Theorem unfollow_unlists event s :
  let user_id := unfollow_user_id event in
  exists s',
    handle_unfollow event s = (Return tt, s')
    /\ replied (base s') = replied (base s)
    /\ pushed (base s') = pushed (base s)
    /\ (forall users,
          healthy (disk (base s)) ->
          encodable (file_text (disk (base s))) = true ->
          listing (base s) = Return users ->
          NoDup users ->
          exists users',
            listing (base s') = Return users'
            /\ (user_id ∉ users')
            /\ (forall y, y <> user_id -> y ∈ users' <-> y ∈ users)).
Proof.
  intros user_id.
  destruct (remove_user_id_run user_id (base s)) as (l & Hrun & _).
  assert (Hstep : handle_unfollow event s
                  = (Return tt,
                     {| base := after (base s)
                                  (snd (remove_effect user_id (disk (base s)))) l;
                        notes := notes s ++ [(INFO, User_unfollowed user_id)] |})).
  { unfold handle_unfollow, hbind, note_line, lift, hret, add_note.
    cbn [base notes]. fold user_id. by rewrite Hrun. }
  eexists. split_and!; [exact Hstep | done | done |].
  intros users Hh Henc Hl Hnd.
  rewrite listing_healthy in Hl by done. injection Hl as <-. cbn [base].
  destruct (decide (user_id ∈ parse_users (file_text (disk (base s))))) as [Hin | Hout].
  - rewrite remove_effect_listed by done. cbn [snd].
    exists (list_remove user_id (parse_users (file_text (disk (base s))))).
    split_and!.
    + rewrite listing_healthy by done. cbn [after disk].
      rewrite file_text_set_content. f_equal.
      apply (parse_users_rewritten (file_text (disk (base s)))), list_remove_sublist.
    + by apply list_remove_NoDup.
    + intros y Hy. by apply list_remove_other.
  - assert (Heff : remove_effect user_id (disk (base s))
                   = (false, touched (disk (base s)))).
    { unfold remove_effect. rewrite (healthy_statable _ Hh). cbn [negb].
      rewrite listed_healthy by done. by rewrite bool_decide_eq_false_2. }
    rewrite Heff. cbn [snd].
    exists (parse_users (file_text (disk (base s)))).
    split_and!; [| done | done].
    rewrite listing_statable; cbn [after disk].
    + by rewrite listed_touched, listed_healthy.
    + rewrite statable_touched. by apply healthy_statable.
Qed.

Lemma unfollow_unlists_witness :
  exists s',
    handle_unfollow {| unfollow_user_id := py "U2" |} (start three_users)
    = (Return tt, s')
    /\ replied (base s') = []
    /\ pushed (base s') = []
    /\ listing (base s') = Return [py "U1"; py "U3"].
Proof.
  destruct (unfollow_unlists {| unfollow_user_id := py "U2" |} (start three_users))
    as (s' & H1 & H2 & H3 & H4).
  destruct (H4 [py "U1"; py "U2"; py "U3"]) as (users' & H5 & _).
  - by repeat split.
  - reflexivity.
  - reflexivity.
  - apply (bool_decide_unpack _). vm_compute. exact I.
  - exists s'. split_and!; [exact H1 | exact H2 | exact H3 |].
    assert (E : listing (base (snd (handle_unfollow
                  {| unfollow_user_id := py "U2" |} (start three_users))))
                = Return users') by (by rewrite H1).
    vm_compute in E. injection E as <-. exact H5.
Defined.

Lemma handle_message_run reply_accepts lower event w :
  exists l w1,
    w1 = after w (snd (save_effect (source_user_id event) (disk w))) l
    /\ handle_message reply_accepts lower event w
       = match reply_text_binding lower (source_user_id event)
                 (strip (message_text event)) with
         | Some reply_text =>
             (Return tt,
              snd (send_reply_message reply_accepts (reply_token event)
                     reply_text w1))
         | None => (Raise (UnboundLocalError "reply_text"), w1)
         end.
Proof.
  unfold handle_message.
  unfold bind at 1. unfold logger at 1. unfold bind at 1.
  match goal with
  | |- context [save_user_id ?u ?v] =>
      destruct (save_user_id_run u v) as (l & Hsave & _);
      assert (Hv : after v (snd (save_effect u (disk v))) l
                   = after w (snd (save_effect u (disk w)))
                       ([(INFO, Message_from u (strip (message_text event)))] ++ l))
        by (unfold after; simpl; by rewrite <- app_assoc);
      rewrite Hv in Hsave
  end.
  rewrite Hsave. eexists _, _. split; [reflexivity |].
  destruct (reply_text_binding _ _ _); [| reflexivity].
  unfold bind.
  match goal with
  | |- context [send_reply_message ?a ?b ?c ?v] =>
      destruct (send_reply_message_run a b c v) as (l' & ->)
  end.
  reflexivity.
Qed.

(** X12.  Whatever the text of the message and whatever the handler
    does next (reply, or stop on the unbound [reply_text]), the sender
    has been saved first: on a store that satisfies the invariant, a
    sender with a well-formed identifier is listed afterwards, the
    listing still has no duplicate, and nobody was dropped from it. *)
Theorem message_sender_is_saved reply_accepts lower event w :
  store_invariant (disk w) ->
  well_formed_id (source_user_id event) = true ->
  exists r w' users,
    handle_message reply_accepts lower event w = (r, w')
    /\ listing w' = Return users
    /\ source_user_id event ∈ users
    /\ NoDup users
    /\ (forall y, y ∈ parse_users (file_text (disk w)) -> y ∈ users).
Proof.
  intros (Hh & Ht & Hnd) Hwf.
  destruct (handle_message_run reply_accepts lower event w) as (l & w1 & Hw1 & Hrun).
  set (x := source_user_id event) in *.
  rewrite save_effect_healthy in Hw1 by (done || by apply well_formed_encodable).
  assert (Hdisk : exists users,
            listed (disk w1) = users /\ healthy (disk w1) /\ x ∈ users
            /\ NoDup users
            /\ (forall y, y ∈ parse_users (file_text (disk w)) -> y ∈ users)).
  { subst w1. destruct (bool_decide (x ∈ parse_users (file_text (disk w)))) eqn:E;
      cbn [snd after disk]; rewrite listed_healthy by done;
      rewrite file_text_set_content; eexists; (split; [reflexivity |]).
    - apply bool_decide_eq_true in E. done.
    - apply bool_decide_eq_false in E.
      rewrite parse_users_app, parse_users_record
        by (done || by apply well_formed_record).
      split_and!; [done | | |].
      + apply elem_of_app. right. by left.
      + apply NoDup_app. split_and!; [done | | apply NoDup_singleton].
        by intros z Hz ->%list_elem_of_singleton.
      + intros y Hy. apply elem_of_app. by left. }
  destruct Hdisk as (users & Hl & Hh1 & Hin & Hnd' & Hkeep).
  destruct (reply_text_binding lower x (strip (message_text event))) as [t |].
  - destruct (send_reply_message_run reply_accepts (reply_token event) t w1)
      as (l' & Hsend).
    rewrite Hsend in Hrun. cbn [snd] in Hrun.
    eexists _, _, users. split_and!; [exact Hrun | | done | done | done].
    rewrite listing_statable; cbn [disk];
      [by rewrite Hl | by apply healthy_statable].
  - eexists _, _, users. split_and!; [exact Hrun | | done | done | done].
    rewrite listing_statable; [by rewrite Hl | by apply healthy_statable].
Qed.

Lemma message_sender_is_saved_witness :
  exists w',
    handle_message (fun _ _ _ => true) ascii_lower
      {| source_user_id := py "U4"; message_text := py "How are you?";
         reply_token := py "token" |}
      three_users
    = (Raise (UnboundLocalError "reply_text"), w')
    /\ listing w' = Return [py "U1"; py "U2"; py "U3"; py "U4"].
Proof.
  destruct (message_sender_is_saved (fun _ _ _ => true) ascii_lower
              {| source_user_id := py "U4"; message_text := py "How are you?";
                 reply_token := py "token" |} three_users)
    as (r & w' & users & Hrun & Hl & _).
  - split_and!; [by repeat split
                | right; by exists (removelast (file_text (disk three_users))) |].
    apply (bool_decide_unpack _). vm_compute. exact I.
  - reflexivity.
  - assert (E : handle_message (fun _ _ _ => true) ascii_lower
                  {| source_user_id := py "U4"; message_text := py "How are you?";
                     reply_token := py "token" |} three_users = (r, w'))
      by exact Hrun.
    assert (Er : r = Raise (UnboundLocalError "reply_text")).
    { apply (f_equal fst) in E. vm_compute in E. by rewrite <- E. }
    assert (Eu : users = [py "U1"; py "U2"; py "U3"; py "U4"]).
    { apply (f_equal (fun p => listing (snd p))) in E. cbn [snd] in E.
      rewrite Hl in E. vm_compute in E. by injection E as <-. }
    subst r users. exists w'. split; [exact Hrun | exact Hl].
Defined.

(** X13.  When one of the branches assigns the reply text, the handler
    returns normally and makes exactly one reply call with that text to
    the event's token, also when the platform refuses the reply (the
    refusal is only logged). *)
Theorem matched_message_is_answered reply_accepts lower event w reply_text :
  reply_text_binding lower (source_user_id event) (strip (message_text event))
  = Some reply_text ->
  exists w',
    handle_message reply_accepts lower event w = (Return tt, w')
    /\ replied w' = replied w ++ [(reply_token event, reply_text)]
    /\ pushed w' = pushed w.
Proof.
  intros Hsome.
  destruct (handle_message_run reply_accepts lower event w) as (l & w1 & Hw1 & Hrun).
  rewrite Hsome in Hrun.
  destruct (send_reply_message_run reply_accepts (reply_token event) reply_text w1)
    as (l' & Hsend).
  rewrite Hsend in Hrun. cbn [snd] in Hrun.
  eexists. split; [exact Hrun |]. subst w1. done.
Qed.

Lemma matched_message_is_answered_witness :
  exists w',
    handle_message (fun _ _ _ => false) ascii_lower
      {| source_user_id := py "U1"; message_text := py "  What is my USER ID?";
         reply_token := py "token" |}
      three_users
    = (Return tt, w')
    /\ replied w' = [(py "token", py "User ID ของคุณคือ: U1")].
Proof.
  destruct (matched_message_is_answered (fun _ _ _ => false) ascii_lower
              {| source_user_id := py "U1";
                 message_text := py "  What is my USER ID?";
                 reply_token := py "token" |}
              three_users (py "User ID ของคุณคือ: U1"))
    as (w' & Hrun & Hr & _).
  - vm_compute. reflexivity.
  - exists w'. split; [exact Hrun | exact Hr].
Defined.

(** ** Administrative endpoints *)

(** X14.  Deleting a listed user on a healthy disk holding valid text
    answers with the success message naming the user, and the listing
    afterwards is the former one without the first occurrence of that
    user. *)
Theorem delete_user_removes user_id w users :
  healthy (disk w) ->
  encodable (file_text (disk w)) = true ->
  listing w = Return users ->
  user_id ∈ users ->
  exists w',
    delete_user user_id w
    = (Return [entry "message"
                 (VText (py "User " ++ user_id ++ py " removed successfully"))],
       w')
    /\ listing w' = Return (list_remove user_id users).
Proof.
  intros Hh Henc. rewrite listing_healthy by done.
  intros [= <-] Hx.
  destruct (remove_user_id_run user_id w) as (l & Hrun & _).
  rewrite remove_effect_listed in Hrun by done. cbn [fst snd] in Hrun.
  unfold delete_user, bind. rewrite Hrun. unfold ret.
  eexists. split; [reflexivity |].
  rewrite listing_healthy by done. cbn [after disk].
  rewrite file_text_set_content. f_equal.
  apply (parse_users_rewritten (file_text (disk w))), list_remove_sublist.
Qed.

Lemma delete_user_removes_witness :
  exists w',
    delete_user (py "U2") three_users
    = (Return [entry "message" (VText (py "User U2 removed successfully"))], w')
    /\ listing w' = Return [py "U1"; py "U3"].
Proof.
  destruct (delete_user_removes (py "U2") three_users [py "U1"; py "U2"; py "U3"])
    as (w' & H1 & H2).
  - by repeat split.
  - reflexivity.
  - reflexivity.
  - apply (bool_decide_unpack _). vm_compute. exact I.
  - exists w'. split; [exact H1 | exact H2].
Defined.

(** X15.  [delete_user] answers 404 "User not found" not only when the
    user is not listed but also when the user is listed and the file
    cannot be opened for writing; in both cases the listing is
    unchanged, so after such a 404 the user may still be listed. *)
Theorem delete_user_not_found user_id w :
  user_id ∉ listed (disk w) \/ writable (disk w) = false ->
  exists w',
    delete_user user_id w
    = (Raise (HTTPException 404 (Text "User not found")), w')
    /\ listing w' = listing w.
Proof.
  intros Hcase.
  destruct (remove_user_id_run user_id w) as (l & Hrun & _).
  assert (Heff : remove_effect user_id (disk w) = (false, touched (disk w))
                 \/ remove_effect user_id (disk w) = (false, disk w)).
  { unfold remove_effect. destruct (statable (disk w)); [left | by right].
    cbn [negb]. destruct (bool_decide _) eqn:E; [| done].
    destruct Hcase as [Hnot | Hw]; [by apply bool_decide_eq_true in E |].
    unfold open_write, open_for_write.
    assert (Hw' : writable (touched (disk w)) = false).
    { unfold touched, path_touch.
      destruct (disk w) as [[t |] st [] rd wr]; exact Hw. }
    by rewrite Hw'. }
  unfold delete_user, bind. rewrite Hrun.
  destruct Heff as [-> | ->]; cbn [fst snd]; unfold raise;
    (eexists; split; [reflexivity |]); rewrite !listing_run; cbn [after disk].
  - by rewrite statable_touched, listed_touched.
  - done.
Qed.

Lemma delete_user_not_found_witness :
  exists w',
    delete_user (py "U2") (boot read_only_disk)
    = (Raise (HTTPException 404 (Text "User not found")), w')
    /\ listing w' = Return [py "U1"; py "U2"; py "U3"].
Proof.
  destruct (delete_user_not_found (py "U2") (boot read_only_disk))
    as (w' & H1 & H2).
  - right. reflexivity.
  - exists w'. split; [exact H1 |]. rewrite H2. vm_compute. reflexivity.
Defined.

(** X16.  Once the module has loaded, [check_config] never answers
    "Configuration incomplete".  Its [Path.exists] call and the read
    that follows stand outside any [try]: when [stat] on the users file
    is refused, the endpoint raises [OSError] and changes nothing.
    Otherwise it answers "Configuration OK"; the [users_file_exists]
    field is read before the users are counted, and counting creates a
    missing file: on a disk that allows creation the file exists after
    the call even when the answer says it does not. *)
Theorem check_config_reports_state_before token secret w :
  module_loads token secret = true ->
  (statable (disk w) = false ->
   check_config token secret w = (Raise OSError, w))
  /\ (statable (disk w) = true ->
      exists file_exists users w',
        path_exists (disk w) = Return file_exists
        /\ listing w = Return users
        /\ check_config token secret w
           = (Return [entry "message" (VStr "Configuration OK");
                      entry "users_file_exists" (VBool file_exists);
                      entry "total_users" (VInt (Z.of_nat (length users)))],
              w')
        /\ (creatable (disk w) = true -> path_exists (disk w') = Return true)).
Proof.
  intros Hload. unfold module_loads in Hload. apply negb_true_iff in Hload.
  unfold check_config. rewrite Hload. split; intros Hs.
  - unfold bind, query, path_exists. by rewrite Hs.
  - destruct (read_user_ids_run w Hs) as (l & Hrun & _).
    eexists _, _, _. split_and!.
    + unfold path_exists. by rewrite Hs.
    + by apply listing_statable.
    + unfold bind, query, path_exists. rewrite Hs, Hrun. reflexivity.
    + cbn [after disk]. intros Hc. unfold path_exists.
      rewrite statable_touched, Hs. unfold touched, path_touch.
      destruct (content (disk w)) eqn:E; simpl; [by rewrite E |]. by rewrite Hc.
Qed.

Lemma check_config_witness :
  (exists w',
     check_config (Some (py "token")) (Some (py "secret")) (boot blank_disk)
     = (Return [entry "message" (VStr "Configuration OK");
                entry "users_file_exists" (VBool false);
                entry "total_users" (VInt 0)],
        w')
     /\ path_exists (disk w') = Return true)
  /\ check_config (Some (py "token")) (Some (py "secret")) (boot unsearchable_disk)
     = (Raise OSError, boot unsearchable_disk).
Proof.
  split.
  - destruct (check_config_reports_state_before (Some (py "token"))
                (Some (py "secret")) (boot blank_disk) eq_refl) as [_ H].
    destruct (H eq_refl) as (b & users & w' & Hb & Hl & Hrun & Hex).
    vm_compute in Hb. injection Hb as <-.
    vm_compute in Hl. injection Hl as <-.
    exists w'. split; [exact Hrun | by apply Hex].
  - destruct (check_config_reports_state_before (Some (py "token"))
                (Some (py "secret")) (boot unsearchable_disk) eq_refl) as [H _].
    exact (H eq_refl).
Defined.

(** X17.  The three counting endpoints agree.  On a disk whose [stat]
    answers, [home], [get_users] and the count endpoint, called one
    after the other, all return and report the same total, which is the
    number of users [get_users] lists.  On a disk whose [stat] is
    refused each of them raises [OSError] and changes nothing. *)
Theorem read_endpoints_agree w :
  (statable (disk w) = true ->
   exists users w1 w2 w3,
     listing w = Return users
     /\ home w
        = (Return [entry "message" (VStr "LINE Bot is running");
                   entry "total_users" (VInt (Z.of_nat (length users)));
                   entry "status" (VStr "active")], w1)
     /\ get_users w1
        = (Return [entry "total_users" (VInt (Z.of_nat (length users)));
                   entry "users" (VList users)], w2)
     /\ get_user_count_endpoint w2
        = (Return [entry "total_users" (VInt (Z.of_nat (length users)))], w3))
  /\ (statable (disk w) = false ->
      home w = (Raise OSError, w)
      /\ get_users w = (Raise OSError, w)
      /\ get_user_count_endpoint w = (Raise OSError, w)).
Proof.
  split; intros Hs.
  - destruct (read_user_ids_run w Hs) as (l1 & H1 & _).
    set (w1 := after w (touched (disk w)) l1) in *.
    assert (Hs1 : statable (disk w1) = true).
    { unfold w1. cbn [after disk]. by rewrite statable_touched. }
    destruct (read_user_ids_run w1 Hs1) as (l2 & H2 & _).
    set (w2 := after w1 (touched (disk w1)) l2) in *.
    assert (Hs2 : statable (disk w2) = true).
    { unfold w2. cbn [after disk]. by rewrite statable_touched. }
    destruct (read_user_ids_run w2 Hs2) as (l3 & H3 & _).
    assert (E1 : listed (disk w1) = listed (disk w)) by apply listed_touched.
    assert (E2 : listed (disk w2) = listed (disk w)).
    { unfold w2. cbn [after disk]. by rewrite listed_touched. }
    rewrite E1 in H2. rewrite E2 in H3.
    exists (listed (disk w)), w1, w2, (after w2 (touched (disk w2)) l3).
    split_and!; [by apply listing_statable | | |].
    + unfold home, bind. by rewrite H1.
    + unfold get_users, bind. by rewrite H2.
    + unfold get_user_count_endpoint, bind. by rewrite H3.
  - pose proof (read_user_ids_refused w Hs) as Hr.
    unfold home, get_users, get_user_count_endpoint, bind. by rewrite Hr.
Qed.

(** X18.  A broadcast with a non-empty text on a store that cannot be
    read.  When [stat] answers and opening the file for reading raises,
    the broadcast does not fail: it answers "No users to send message
    to" with a total of 0 and pushes nothing.  When [stat] itself is
    refused, the error leaves [read_user_ids] inside the handler's
    [try]: the caller gets status 500, the error is logged, nothing is
    pushed and the disk is untouched. *)
Theorem broadcast_on_unreadable_store push_accepts request text w :
  dict_get request "text" = Some text ->
  text <> [] ->
  (forall e,
     statable (disk w) = true ->
     open_read (touched (disk w)) = Raise e ->
     exists w',
       broadcast_message push_accepts request w
       = (Return [entry "message" (JStr "No users to send message to");
                  entry "total_users" (JInt 0)],
          w')
       /\ pushed w' = pushed w)
  /\ (statable (disk w) = false ->
      exists w',
        broadcast_message push_accepts request w
        = (Raise (HTTPException 500 (Formatted "Error broadcasting: " OSError)), w')
        /\ pushed w' = pushed w
        /\ disk w' = disk w
        /\ log w' = log w ++ [(ERROR, Error_in_broadcast OSError)]).
Proof.
  intros Hreq Htext. split.
  - intros e Hs Herr.
    destruct (broadcast_message_run push_accepts request text w Hreq Htext Hs)
      as [l Hrun].
    assert (Hl : listed (disk w) = []) by (unfold listed; by rewrite Herr).
    rewrite Hl in Hrun. eexists. split; [exact Hrun |].
    cbn [pushed map]. apply app_nil_r.
  - intros Hs. unfold broadcast_message, try_except. rewrite Hreq. simpl.
    destruct text as [| c text]; [done |]. simpl.
    unfold bind. rewrite (read_user_ids_refused w Hs).
    eexists. split; [reflexivity |]. done.
Qed.

Lemma broadcast_on_unreadable_store_witness :
  (exists w',
     broadcast_message (fun _ _ _ => true) [entry "text" (py "hi")]
       (boot locked_disk)
     = (Return [entry "message" (JStr "No users to send message to");
                entry "total_users" (JInt 0)],
        w')
     /\ pushed w' = [])
  /\ (exists w',
        broadcast_message (fun _ _ _ => true) [entry "text" (py "hi")]
          (boot unsearchable_disk)
        = (Raise (HTTPException 500 (Formatted "Error broadcasting: " OSError)), w')
        /\ pushed w' = []).
Proof.
  split.
  - destruct (broadcast_on_unreadable_store (fun _ _ _ => true)
                [entry "text" (py "hi")] (py "hi") (boot locked_disk))
      as [H _]; [reflexivity | discriminate |].
    destruct (H OSError) as (w' & H1 & H2); [reflexivity | reflexivity |].
    exists w'. split; [exact H1 | exact H2].
  - destruct (broadcast_on_unreadable_store (fun _ _ _ => true)
                [entry "text" (py "hi")] (py "hi") (boot unsearchable_disk))
      as [_ H]; [reflexivity | discriminate |].
    destruct (H eq_refl) as (w' & H1 & H2 & _).
    exists w'. split; [exact H1 | exact H2].
Defined.

(** ** Webhook *)

(** X19.  A request without signature (header missing or empty) is
    answered 400 before the body is decoded or the handler is called:
    nothing but one error log line changes.  With a signature, a body
    that does not decode makes [webhook] fail with the uncaught
    [UnicodeDecodeError] before anything is logged.  With a signature
    and a decodable body, the answer follows what the handler did: 200
    with the message "Webhook handled successfully" exactly when it
    returned, 400 "Invalid signature" when it raised
    [InvalidSignatureError], and 500 "Internal server error" (not
    naming the exception) when it raised anything else, each time with
    the matching log line added to what the handler left.  The initial
    reply text "Thank you!" is never sent. *)
Theorem webhook_outcomes decode_utf8 handler_handle signature body s :
  (not_set signature = true ->
   webhook decode_utf8 handler_handle signature body s
   = (Webhook_HTTPException 400 "Missing X-Line-Signature",
      {| base := base s;
         notes := notes s ++ [(ERROR, Missing_signature_header)] |}))
  /\ (forall sig,
        signature = Some sig -> sig <> [] ->
        decode_utf8 body = None ->
        webhook decode_utf8 handler_handle signature body s
        = (Uncaught_UnicodeDecodeError, s))
  /\ (forall sig body_text,
        signature = Some sig -> sig <> [] ->
        decode_utf8 body = Some body_text ->
        let s1 := add_note INFO (Received_webhook body_text) s in
        let s2 := snd (handler_handle body_text sig s1) in
        (fst (handler_handle body_text sig s1) = Handled ->
         webhook decode_utf8 handler_handle signature body s
         = (JSONResponse [entry "message" (VStr "Webhook handled successfully")],
            add_note INFO Webhook_handled s2))
        /\ (fst (handler_handle body_text sig s1) = Raised_InvalidSignatureError ->
            webhook decode_utf8 handler_handle signature body s
            = (Webhook_HTTPException 400 "Invalid signature",
               add_note ERROR Invalid_signature_error s2))
        /\ (forall e,
              fst (handler_handle body_text sig s1) = Raised_Exception e ->
              webhook decode_utf8 handler_handle signature body s
              = (Webhook_HTTPException 500 "Internal server error",
                 add_note ERROR (Unexpected_error_handling_webhook e) s2)))
  /\ (forall r s',
        webhook decode_utf8 handler_handle signature body s = (r, s') ->
        r <> JSONResponse [entry "message" (VStr "Thank you!")]).
Proof.
  split_and!.
  - intros Hns. unfold webhook. by rewrite Hns.
  - intros sig -> Hsig Hdec. unfold webhook.
    destruct sig as [| c sig]; [done |]. cbn [not_set truthy negb].
    by rewrite Hdec.
  - intros sig body_text -> Hsig Hdec s1 s2. unfold webhook.
    destruct sig as [| c sig]; [done |]. cbn [not_set truthy negb].
    rewrite Hdec. unfold default, from_option, id. fold s1. subst s2.
    destruct (handler_handle body_text (c :: sig) s1) as [[| | e] s2];
      cbn [fst snd];
      (split_and!; [intros E | intros E | intros e' E]);
      try discriminate E; try (injection E as <-); reflexivity.
  - intros r s'. unfold webhook.
    destruct (not_set signature); [by intros [= <- _] |].
    destruct (decode_utf8 body) as [body_text |]; [| by intros [= <- _]].
    destruct (handler_handle _ _ _) as [[| | e] s2]; by intros [= <- _].
Qed.

Lemma webhook_outcomes_witness :
  webhook (fun _ => Some []) (fun _ _ s => (Handled, s)) None [] (start three_users)
  = (Webhook_HTTPException 400 "Missing X-Line-Signature",
     {| base := three_users; notes := [(ERROR, Missing_signature_header)] |})
  /\ fst (webhook (fun _ => Some (py "{}"))
            (fun _ _ s => (Raised_Exception ApiException, s))
            (Some (py "sig")) [] (start three_users))
     = Webhook_HTTPException 500 "Internal server error"
  /\ fst (webhook (fun _ => Some (py "{}"))
            (fun _ _ s => (Raised_InvalidSignatureError, s))
            (Some (py "sig")) [] (start three_users))
     = Webhook_HTTPException 400 "Invalid signature".
Proof.
  split_and!.
  - destruct (webhook_outcomes (fun _ => Some []) (fun _ _ s => (Handled, s))
                None [] (start three_users)) as [H _].
    exact (H eq_refl).
  - destruct (webhook_outcomes (fun _ => Some (py "{}"))
                (fun _ _ s => (Raised_Exception ApiException, s))
                (Some (py "sig")) [] (start three_users)) as (_ & _ & H & _).
    destruct (H (py "sig") (py "{}") eq_refl) as (_ & _ & H500);
      [discriminate | reflexivity |].
    by rewrite (H500 ApiException eq_refl).
  - destruct (webhook_outcomes (fun _ => Some (py "{}"))
                (fun _ _ s => (Raised_InvalidSignatureError, s))
                (Some (py "sig")) [] (start three_users)) as (_ & _ & H & _).
    destruct (H (py "sig") (py "{}") eq_refl) as (_ & H400 & _);
      [discriminate | reflexivity |].
    by rewrite (H400 eq_refl).
Defined.

(** ** Callers running at the same time *)

(** [remove_user_id] is its read followed by [remove_decided]. *)
Lemma remove_user_id_two_steps x w :
  statable (disk w) = true ->
  exists users w1,
    read_user_ids w = (Return users, w1)
    /\ remove_user_id x w = remove_decided x users w1.
Proof.
  intros Hs. destruct (read_user_ids_run w Hs) as (l & Hread & _).
  eexists _, _. split; [exact Hread |].
  unfold remove_user_id, remove_decided, try_except, bind. by rewrite Hread.
Qed.

(** X20.  On a healthy disk whose file is empty or ends with a line
    feed, two calls of [save_user_id] for the same well-formed
    identifier that is not listed, both reading the file before either
    appends (the source takes no lock), both return true, and the
    identifier is listed twice afterwards. *)
Theorem concurrent_saves_of_one_id x w :
  healthy (disk w) ->
  terminated (file_text (disk w)) ->
  well_formed_id x = true ->
  x ∉ parse_users (file_text (disk w)) ->
  let st := run_schedule [0; 1; 0; 1]%nat ([Waiting x; Waiting x], w) in
  st.1 = [Finished true; Finished true]
  /\ listing st.2 = Return (parse_users (file_text (disk w)) ++ [x; x]).
Proof.
  intros Hh Ht Hwf Hnew st. subst st.
  pose proof (well_formed_encodable x Hwf) as Henc.
  set (users := parse_users (file_text (disk w))) in *.
  destruct (advance_waiting x w Hh) as [l1 H1]. fold users in H1.
  set (w1 := after w _ l1) in H1.
  destruct (advance_waiting x w1) as [l2 H2]; [done |].
  change (file_text (disk w1)) with (file_text (disk w)) in H2. fold users in H2.
  set (w2 := after w1 _ l2) in H2.
  destruct (advance_decided x users w2) as [l3 H3]; [done | done | done |].
  change (file_text (disk w2)) with (file_text (disk w)) in H3.
  set (w3 := after w2 _ l3) in H3.
  destruct (advance_decided x users w3) as [l4 H4]; [done | done | done |].
  change (file_text (disk w3)) with (file_text (disk w) ++ x ++ [LF]) in H4.
  set (w4 := after w3 _ l4) in H4.
  assert (S1 : schedule_step ([Waiting x; Waiting x], w) 0
               = ([Decided x users; Waiting x], w1)).
  { unfold schedule_step. cbn [fst snd lookup list_lookup]. by rewrite H1. }
  assert (S2 : schedule_step ([Decided x users; Waiting x], w1) 1
               = ([Decided x users; Decided x users], w2)).
  { unfold schedule_step. cbn [fst snd lookup list_lookup]. by rewrite H2. }
  assert (S3 : schedule_step ([Decided x users; Decided x users], w2) 0
               = ([Finished true; Decided x users], w3)).
  { unfold schedule_step. cbn [fst snd lookup list_lookup]. by rewrite H3. }
  assert (S4 : schedule_step ([Finished true; Decided x users], w3) 1
               = ([Finished true; Finished true], w4)).
  { unfold schedule_step. cbn [fst snd lookup list_lookup]. by rewrite H4. }
  unfold run_schedule. cbn [foldl]. rewrite S1, S2, S3, S4. cbn [fst snd].
  split; [done |].
  rewrite listing_healthy by done. unfold w4. cbn [after disk].
  rewrite file_text_set_content. f_equal.
  rewrite parse_users_app by apply terminated_record.
  rewrite parse_users_app, !parse_users_record
    by (done || by apply well_formed_record).
  by rewrite <- app_assoc.
Qed.

Lemma concurrent_saves_of_one_id_witness :
  let st := run_schedule [0; 1; 0; 1]%nat
              ([Waiting (py "U4"); Waiting (py "U4")], three_users) in
  st.1 = [Finished true; Finished true]
  /\ listing st.2 = Return [py "U1"; py "U2"; py "U3"; py "U4"; py "U4"].
Proof.
  apply (concurrent_saves_of_one_id (py "U4") three_users).
  - by repeat split.
  - right. by exists (removelast (file_text (disk three_users))).
  - reflexivity.
  - apply (bool_decide_unpack _). vm_compute. exact I.
Defined.

(** X21.  A removal that has read the file rewrites it from what it
    read.  On a healthy disk whose file holds encodable text and is
    empty or ends with a line feed: a well-formed identifier that is not
    listed, saved between the read and the rewrite of the removal of a
    listed identifier, is reported as saved (true) and is listed for a
    moment, but is gone once the removal has finished. *)
Theorem stale_remove_loses_save x y w :
  healthy (disk w) ->
  terminated (file_text (disk w)) ->
  encodable (file_text (disk w)) = true ->
  well_formed_id x = true ->
  x ∉ parse_users (file_text (disk w)) ->
  y ∈ parse_users (file_text (disk w)) ->
  exists users w1 w2 w3 after_save after_remove,
    read_user_ids w = (Return users, w1)
    /\ save_user_id x w1 = (Return true, w2)
    /\ listing w2 = Return after_save
    /\ x ∈ after_save
    /\ remove_decided y users w2 = (Return true, w3)
    /\ listing w3 = Return after_remove
    /\ x ∉ after_remove.
Proof.
  intros Hh Ht Henc Hwf Hnew Hy.
  destruct (read_user_ids_run w (healthy_statable _ Hh)) as (l1 & Hread & _).
  rewrite listed_healthy, touched_healthy in Hread by done.
  set (users := parse_users (file_text (disk w))) in *.
  set (w1 := after w _ l1) in Hread.
  destruct (save_user_id_run x w1) as (l2 & Hsave & _).
  rewrite save_effect_healthy in Hsave by (done || by apply well_formed_encodable).
  assert (Hft1 : file_text (disk w1) = file_text (disk w)) by done.
  rewrite Hft1 in Hsave. fold users in Hsave.
  rewrite bool_decide_eq_false_2 in Hsave by done. cbn [fst snd] in Hsave.
  set (w2 := after w1 _ l2) in Hsave.
  assert (Hsub : list_remove y users `sublist_of` users) by apply list_remove_sublist.
  assert (Hencs : Forall (fun u => encodable u = true) (list_remove y users)).
  { apply Forall_forall. intros u Hu.
    apply (proj1 (Forall_forall _ _) (parse_users_encodable _ Henc)).
    by apply (elem_of_sublist (list_remove y users)). }
  exists users, w1, w2.
  eexists _, (users ++ [x]), (list_remove y users).
  split_and!; [exact Hread | exact Hsave | | | | |].
  - rewrite listing_healthy by done. unfold w2. cbn [after disk].
    rewrite file_text_set_content. f_equal.
    rewrite parse_users_app, parse_users_record
      by (done || by apply well_formed_record).
    done.
  - apply elem_of_app. right. by left.
  - unfold remove_decided, try_except, bind.
    rewrite bool_decide_eq_true_2 by done.
    unfold on_disk, open_write, open_for_write.
    destruct Hh as (_ & _ & _ & Hw).
    cbn [w2 w1 after disk set_content writable content].
    rewrite Hw, write_users_all by done. reflexivity.
  - rewrite listing_statable; cbn [set_disk disk log];
      [| cbn [w2 w1 after disk set_content statable];
         by apply healthy_statable].
    unfold listed, touched, path_touch, open_read.
    destruct Hh as (_ & _ & Hr & _).
    cbn [w2 w1 after disk set_content readable content snd]. rewrite Hr.
    f_equal. apply (parse_users_rewritten (file_text (disk w))), Hsub.
  - intros Hin. apply Hnew. by apply (elem_of_sublist (list_remove y users)).
Qed.

Lemma stale_remove_loses_save_witness :
  exists users w1 w2 w3,
    read_user_ids three_users = (Return users, w1)
    /\ save_user_id (py "U4") w1 = (Return true, w2)
    /\ remove_decided (py "U2") users w2 = (Return true, w3)
    /\ listing w3 = Return [py "U1"; py "U3"].
Proof.
  destruct (stale_remove_loses_save (py "U4") (py "U2") three_users)
    as (users & w1 & w2 & w3 & a & b & H1 & H2 & _ & _ & H3 & H4 & _).
  - by repeat split.
  - right. by exists (removelast (file_text (disk three_users))).
  - reflexivity.
  - reflexivity.
  - apply (bool_decide_unpack _). vm_compute. exact I.
  - apply (bool_decide_unpack _). vm_compute. exact I.
  - exists users, w1, w2, w3. split_and!; [exact H1 | exact H2 | exact H3 |].
    assert (Eu : users = [py "U1"; py "U2"; py "U3"]).
    { assert (E : fst (read_user_ids three_users) = Return users) by (by rewrite H1).
      vm_compute in E. by injection E as <-. }
    assert (Ew : listing (snd (remove_decided (py "U2") users
                                 (snd (save_user_id (py "U4")
                                         (snd (read_user_ids three_users))))))
                 = listing w3).
    { rewrite H1. cbn [snd]. rewrite H2. cbn [snd]. by rewrite H3. }
    rewrite <- Ew, Eu. vm_compute. reflexivity.
Defined.
